(** * decipher-bench: evaluation dispatch, trial runner and report aggregation

    A shallow embedding of [decipher_bench/models.py],
    [decipher_bench/evaluators/core.py], [decipher_bench/benchmark.py] and
    [decipher_bench/reporters.py], followed by the properties of the
    evaluation-and-aggregation engine.

    Conventions of the embedding.
    - A Python [str] is a [string]; each character is read as a code point
      below 256.
    - A Python [float] is an exact rational ([Q], kept in lowest terms):
      the sums and quotients of the model are those of arithmetic without
      rounding, and infinities and NaN are outside it. An [int] too large
      for a [float] raises [OverflowError], as in Python. The module
      [Binary64] reads the mean of the reporter in binary64, where the
      order of the summands matters.
    - A Python exception is a value of [exn]; a computation that may raise
      returns an [outcome].
    - Third-party libraries (rouge_score, bert_score, re, openai, jinja2,
      pydantic's validation of a whole test file, the clock, the file
      system) are the fields of the classes [Scorers] and [Env]: nothing is
      assumed of them unless a theorem says so. *)

From Stdlib Require Import ZArith QArith Qreduction String Ascii List Permutation Lia.
From Stdlib Require PrimFloat.
From stdpp Require Import base gmap strings list pretty.

Local Open Scope string_scope.
Local Open Scope Z_scope.

(* ===================================================================== *)
(** ** Python values and exceptions *)
(* ===================================================================== *)

(** The values a field typed [Any] holds in this development. *)
#[warnings="-register-all"]
Inductive pyval : Type :=
| PNone
| PBool (b : bool)
| PInt (z : Z)
| PFloat (q : Q)
| PStr (s : string)
| PList (l : list pyval).

(** The exception classes the code raises or meets. *)
Inductive exn : Type :=
| ValueError (msg : string)
| TypeError (msg : string)
| KeyError (key : string)
| ValidationError (msg : string)
| OtherError (cls msg : string).

Inductive outcome (A : Type) : Type :=
| Ok (a : A)
| Raise (e : exn).
Arguments Ok {A} a.
Arguments Raise {A} e.

Definition obind {A B} (m : outcome A) (k : A -> outcome B) : outcome B :=
  match m with
  | Ok a => k a
  | Raise e => Raise e
  end.

Declare Scope outcome_scope.
Delimit Scope outcome_scope with outcome.
Notation "x <-- m ;; k" := (obind m (fun x => k))
  (at level 100, m at next level, right associativity) : outcome_scope.

(** The value of a computation that returned. *)
Definition outcome_value {A} (m : outcome A) : option A :=
  match m with
  | Ok a => Some a
  | Raise _ => None
  end.

Definition raises {A} (m : outcome A) : Prop := exists e, m = Raise e.
Definition returns {A} (m : outcome A) : Prop := exists a, m = Ok a.

(** The numbers of Python's arithmetic: [int] and [float]. *)
Inductive number : Type :=
| NInt (z : Z)
| NFloat (q : Q).

Definition number_Q (n : number) : Q :=
  match n with
  | NInt z => inject_Z z
  | NFloat q => q
  end.

(** [bool] is a subclass of [int]. *)
Definition as_number (v : pyval) : option number :=
  match v with
  | PBool b => Some (NInt (if b then 1 else 0))
  | PInt z => Some (NInt z)
  | PFloat q => Some (NFloat q)
  | _ => None
  end.

Definition type_name (v : pyval) : string :=
  match v with
  | PNone => "NoneType"
  | PBool _ => "bool"
  | PInt _ => "int"
  | PFloat _ => "float"
  | PStr _ => "str"
  | PList _ => "list"
  end.

Definition number_type_name (n : number) : string :=
  match n with
  | NInt _ => "int"
  | NFloat _ => "float"
  end.

(** The value of [a + b] on numbers: [int + int] is an [int], anything else
    a [float], here the exact sum (binary64 rounds it). *)
Definition number_add (a b : number) : number :=
  match a, b with
  | NInt x, NInt y => NInt (x + y)
  | _, _ => NFloat (Qred (number_Q a + number_Q b))
  end.

(** An [int] becomes a [float] when its magnitude, rounded to nearest,
    stays below [2 ^ 1024]: that is, below [2 ^ 1024 - 2 ^ 970]. *)
Definition float_limit : Z := 2 ^ 1024 - 2 ^ 970.

Definition int_to_float (z : Z) : outcome Q :=
  if Z.abs z <? float_limit then Ok (inject_Z z)
  else Raise (OtherError "OverflowError" "int too large to convert to float").

(** [acc + v] as [sum] performs it: [acc] is a number already. An [int]
    added to a [float] is converted first; the value is [number_add]. *)
Definition py_add (acc : number) (v : pyval) : outcome number :=
  match as_number v with
  | Some n =>
      match acc, n with
      | NInt x, NFloat _ =>
          (_ <-- int_to_float x ;; Ok (number_add acc n))%outcome
      | NFloat _, NInt y =>
          (_ <-- int_to_float y ;; Ok (number_add acc n))%outcome
      | _, _ => Ok (number_add acc n)
      end
  | None =>
      Raise (TypeError ("unsupported operand type(s) for +: '"
                          ++ number_type_name acc ++ "' and '"
                          ++ type_name v ++ "'"))
  end.

(** The value of [a / n] for a positive [int] divisor [n]: true division, a
    [float], here the exact quotient (binary64 rounds it). *)
Definition number_div (a : number) (n : Z) : number :=
  NFloat (Qred (number_Q a / inject_Z n)).

(** [a / n] as Python performs it, for a positive [int] [n] within the
    float range: the quotient of two [int] raises when, rounded to nearest,
    it leaves the float range; the value is [number_div]. *)
Definition py_truediv (a : number) (n : Z) : outcome number :=
  match a with
  | NInt z =>
      if Z.abs z <? float_limit * n then Ok (number_div a n)
      else Raise (OtherError "OverflowError"
                    "integer division result too large for a float")
  | NFloat _ => Ok (number_div a n)
  end.

(** Truth value of an object, as [if v:] tests it. *)
Definition truthy (v : pyval) : bool :=
  match v with
  | PNone => false
  | PBool b => b
  | PInt z => negb (z =? 0)
  | PFloat q => negb (Qeq_bool q 0)
  | PStr s => negb (String.eqb s "")
  | PList l => match l with [] => false | _ :: _ => true end
  end.

(** [a == b] on hashable values, as a [dict] compares its keys. *)
Definition py_eqb (a b : pyval) : bool :=
  match a, b with
  | PNone, PNone => true
  | PStr s, PStr t => String.eqb s t
  | _, _ =>
      match as_number a, as_number b with
      | Some x, Some y => Qeq_bool (number_Q x) (number_Q y)
      | _, _ => false
      end
  end.

Definition hashable (v : pyval) : bool :=
  match v with
  | PList _ => false
  | _ => true
  end.

(* ===================================================================== *)
(** ** [str.strip()] *)
(* ===================================================================== *)

(** [str.isspace] on the code points below 256. *)
Definition isspace (c : ascii) : bool :=
  let n := nat_of_ascii c in
  ((9 <=? n)%nat && (n <=? 13)%nat)
  || ((28 <=? n)%nat && (n <=? 32)%nat)
  || (n =? 133)%nat || (n =? 160)%nat.

Fixpoint lstrip (s : string) : string :=
  match s with
  | EmptyString => EmptyString
  | String c s' => if isspace c then lstrip s' else s
  end.

Fixpoint rstrip (s : string) : string :=
  match s with
  | EmptyString => EmptyString
  | String c s' =>
      match rstrip s' with
      | EmptyString => if isspace c then EmptyString else String c EmptyString
      | r => String c r
      end
  end.

Definition strip (s : string) : string := rstrip (lstrip s).

(* ===================================================================== *)
(** ** models.py *)
(* ===================================================================== *)

Inductive difficulty_level : Type := easy | medium | hard.

Record TestMetadata : Type := {
  created_at : string;
  author : option string;
  tags : list string;
  difficulty : difficulty_level
}.

Record TestCaseParameters : Type := {
  temperature : Q;
  max_tokens : Z;
  top_p : Q
}.

Record TestCase : Type := {
  system_prompt : string;
  user_prompt : string;
  context : option string;
  parameters : TestCaseParameters
}.

Record Evaluation : Type := {
  type : string;
  expected_answer : pyval;
  acceptable_variations : option (list string);
  regex_pattern : option string
}.

Record TestDefinition : Type := {
  test_id : string;
  version : string;
  metadata : TestMetadata;
  test_case : TestCase;
  evaluation : Evaluation
}.

Module TestResult.
Record t : Type := {
  test_id : string;
  passed : bool;
  score : Q;
  actual_output : string;
  expected_output : pyval;
  error_message : option string;
  execution_time_ms : Q;
  prompt_tokens : option Z;
  completion_tokens : option Z
}.
End TestResult.

(** Validation of one field typed [str], [Optional[str]] and
    [Optional[List[str]]] (pydantic 2: a [str] field takes a [str] only).
    The [ValidationError] names the first field that is refused. *)
Definition validate_str (field : string) (v : pyval) : outcome string :=
  match v with
  | PStr s => Ok s
  | _ => Raise (ValidationError field)
  end.

Definition validate_optional_str (field : string) (v : option pyval)
  : outcome (option string) :=
  match v with
  | None | Some PNone => Ok None
  | Some (PStr s) => Ok (Some s)
  | Some _ => Raise (ValidationError field)
  end.

Fixpoint validate_list_str (field : string) (l : list pyval)
  : outcome (list string) :=
  match l with
  | [] => Ok []
  | v :: l' =>
      (s <-- validate_str field v ;;
       r <-- validate_list_str field l' ;;
       Ok (s :: r))%outcome
  end.

Definition validate_optional_list_str (field : string) (v : option pyval)
  : outcome (option (list string)) :=
  match v with
  | None | Some PNone => Ok None
  | Some (PList l) => (r <-- validate_list_str field l ;; Ok (Some r))%outcome
  | Some _ => Raise (ValidationError field)
  end.

(** [Evaluation(data)] on keyword arguments [data]: the class declares four typed fields and no
    validator; [type] is the only required field. *)
Definition Evaluation_init (data : gmap string pyval) : outcome Evaluation :=
  match data !! "type" with
  | None => Raise (ValidationError "type")
  | Some ty =>
      (ty' <-- validate_str "type" ty ;;
       vars <-- validate_optional_list_str "acceptable_variations"
                  (data !! "acceptable_variations") ;;
       pat <-- validate_optional_str "regex_pattern" (data !! "regex_pattern") ;;
       Ok {| type := ty';
             expected_answer := default PNone (data !! "expected_answer");
             acceptable_variations := vars;
             regex_pattern := pat |})%outcome
  end.

(* ===================================================================== *)
(** ** evaluators/core.py *)
(* ===================================================================== *)

(** The three libraries the scoring strategies call.
    - [rouge_fmeasure ty stem target prediction] is
      [RougeScorer([ty], use_stemmer=stem).score(target, prediction)[ty].fmeasure];
    - [bert_scorer cands refs lang] is the [F1] component that
      [bert_score.score(cands, refs, lang=lang, verbose=False)] returns for
      its single pair, read with [.item()];
    - [re_search pattern s] is [bool(re.search(pattern, s))]; it raises on a
      string that is not a regular expression;
    - [py_repr v] is [str(v)] for a [float] or a [list]. *)
Class Scorers : Type := {
  rouge_fmeasure : string -> bool -> string -> string -> Q;
  bert_scorer : list string -> list string -> string -> Q;
  re_search : string -> string -> outcome bool;
  py_repr : pyval -> string
}.

(** The [{"score": ..., "passed": ...}] dictionary of a strategy. *)
Module EvalResult.
Record t : Type := { score : Q; passed : bool }.
End EvalResult.

Section Evaluators.
Context `{Scorers}.

(** [str(v)]. *)
Definition py_str (v : pyval) : string :=
  match v with
  | PStr s => s
  | PNone => "None"
  | PBool true => "True"
  | PBool false => "False"
  | PInt z => pretty z
  | PFloat _ | PList _ => py_repr v
  end.

Definition bertscore_evaluator (response : string) (evaluation : Evaluation)
  : outcome EvalResult.t :=
  match expected_answer evaluation with
  | PStr expected =>
      let candidates := [strip response] in
      let references := [strip expected] in
      let f1_score := bert_scorer candidates references "en" in
      Ok {| EvalResult.score := f1_score; EvalResult.passed := true |}
  | _ => Raise (TypeError "expected_answer must be a string for BERTScore.")
  end.

Definition exact_match_evaluator (response : string) (evaluation : Evaluation)
  : outcome EvalResult.t :=
  let response_clean := strip response in
  let expected_answer := strip (py_str (expected_answer evaluation)) in
  let variations := default [] (acceptable_variations evaluation) in
  let passed := String.eqb response_clean expected_answer in
  let passed :=
    if negb passed && negb (bool_decide (variations = []))
    then existsb (fun var => String.eqb response_clean (strip var)) variations
    else passed in
  let rouge_l_f1 := rouge_fmeasure "rougeL" true expected_answer response_clean in
  Ok {| EvalResult.score := rouge_l_f1; EvalResult.passed := passed |}.

Definition regex_match_evaluator (response : string) (evaluation : Evaluation)
  : outcome EvalResult.t :=
  match regex_pattern evaluation with
  | None | Some EmptyString =>
      Raise (ValueError "Regex pattern not provided for regex_match evaluator.")
  | Some pattern =>
      (is_match <-- re_search pattern response ;;
       let score := if is_match then 1%Q else 0%Q in
       let passed := is_match in
       Ok {| EvalResult.score := score; EvalResult.passed := passed |})%outcome
  end.

(** The dispatch table of [evaluate_response], a [dict] keyed by name. *)
Definition eval_functions
  : gmap string (string -> Evaluation -> outcome EvalResult.t) :=
  <["exact_match" := exact_match_evaluator]>
    (<["regex_match" := regex_match_evaluator]>
       (<["bert_score" := bertscore_evaluator]> ∅)).

Definition evaluate_response (response : string) (evaluation : Evaluation)
  : outcome EvalResult.t :=
  let eval_type := type evaluation in
  match eval_functions !! eval_type with
  | None => Raise (ValueError ("Unknown evaluation type: " ++ eval_type))
  | Some f => f response evaluation
  end.

End Evaluators.

(* ===================================================================== *)
(** ** The world a run acts on *)
(* ===================================================================== *)

(** What [response] of [client.chat.completions.create] is read for:
    [choices[0].message.content] and the two counters of [usage]. *)
Record ChatCompletion : Type := {
  content : string;
  usage_prompt_tokens : Z;
  usage_completion_tokens : Z
}.

(** An object handed to the reporter: a [dict] keyed by strings, or a
    [TestResult] model instance. *)
Inductive pyobj : Type :=
| ODict (d : gmap string pyval)
| OTestResult (r : TestResult.t).

(** The summary dictionaries the template receives. *)
Module CategorySummary.
Record t : Type := {
  score : number;
  tests_run : Z;
  passed : Z;
  failed : Z
}.
End CategorySummary.

Module Summary.
Record t : Type := {
  total_tests : Z;
  passed : Z;
  failed : Z;
  average_score : string;
  execution_time : string
}.
End Summary.

(** Calls that leave a mark: they are recorded in the order they happen.
    [EvWrite] is recorded when the reporter asks for the report file to be
    opened and written (line 57), whether or not that goes through: a
    failed attempt may have created or truncated the file. *)
Inductive event : Type :=
| EvLoad (test_path : string)
| EvChat (model : string) (test_case : TestCase)
| EvEvaluate (response : string) (evaluation : Evaluation)
| EvWrite (output_path html_content : string)
| EvPrint (msg : string).

Record World : Type := {
  ticks : nat;
  trace : list event
}.

(** The collaborators of the runner and of the reporter.
    - [json_load path] is [json.load] on the opened file and
      [TestDefinition_init data] is [TestDefinition(data)];
    - [chat_completions_create model test_case] is the backend call of
      [_call_llm] with the messages and parameters of [test_case]:
      [inr response], or [inl msg] when it raises an exception [e] with
      [str(e) = msg]; reading the fields of a response does not raise;
    - [time_time n] is what the [n]-th call of [time.time()] returns;
    - [sorted_glob dir pattern] is [sorted(dir.glob(pattern))] and
      [sorted_rglob] the same with [rglob];
    - [format_2f x] is [f"{x:.2f}"];
    - [render_report] loads and renders [report_template.html];
    - [write_text path text] is how opening [path] for writing and writing
      [text] to it ends: it returns, or [open] or [write] raises. *)
Class Env : Type := {
  json : Type;
  json_load : string -> outcome json;
  TestDefinition_init : json -> outcome TestDefinition;
  chat_completions_create : string -> TestCase -> string + ChatCompletion;
  time_time : nat -> Q;
  sorted_glob : string -> string -> list string;
  sorted_rglob : string -> string -> list string;
  format_2f : number -> string;
  render_report :
    Summary.t -> list (pyval * CategorySummary.t) -> list pyobj -> outcome string;
  write_text : string -> string -> outcome unit
}.

(** State and exceptions together: a raised exception keeps the world. *)
Definition M (A : Type) : Type := World -> outcome A * World.

Definition ret {A} (a : A) : M A := fun w => (Ok a, w).

Definition bind {A B} (m : M A) (k : A -> M B) : M B :=
  fun w =>
    match m w with
    | (Ok a, w') => k a w'
    | (Raise e, w') => (Raise e, w')
    end.

Definition lift {A} (o : outcome A) : M A := fun w => (o, w).

Definition emit (e : event) : M unit :=
  fun w => (Ok tt, {| ticks := ticks w; trace := trace w ++ [e] |}).

Declare Scope M_scope.
Delimit Scope M_scope with M.
Notation "x <- m ;; k" := (bind m (fun x => k))
  (at level 100, m at next level, right associativity) : M_scope.
Notation "m ;;; k" := (bind m (fun _ => k))
  (at level 100, right associativity) : M_scope.

Definition time `{Env} : M Q :=
  fun w => (Ok (time_time (ticks w)), {| ticks := S (ticks w); trace := trace w |}).

Definition init_world : World := {| ticks := 0; trace := [] |}.

(* ===================================================================== *)
(** ** reporters.py *)
(* ===================================================================== *)

(** [r[key]]: a [dict] raises [KeyError] on a missing key; a pydantic model
    has no [__getitem__]. *)
Definition getitem (r : pyobj) (key : string) : outcome pyval :=
  match r with
  | ODict d =>
      match d !! key with
      | Some v => Ok v
      | None => Raise (KeyError key)
      end
  | OTestResult _ => Raise (TypeError "'TestResult' object is not subscriptable")
  end.

(** [acc + sum(1 for r in results if r["passed"])]. *)
Fixpoint sum_passed (acc : Z) (results : list pyobj) : outcome Z :=
  match results with
  | [] => Ok acc
  | r :: results' =>
      (p <-- getitem r "passed" ;;
       sum_passed (if truthy p then acc + 1 else acc) results')%outcome
  end.

(** [acc + sum(r["score"] for r in results if r["score"] is not None)]. *)
Fixpoint sum_scores (acc : number) (results : list pyobj) : outcome number :=
  match results with
  | [] => Ok acc
  | r :: results' =>
      (s <-- getitem r "score" ;;
       match s with
       | PNone => sum_scores acc results'
       | _ =>
           s' <-- getitem r "score" ;;
           acc' <-- py_add acc s' ;;
           sum_scores acc' results'
       end)%outcome
  end.

(** [acc + sum(r["execution_time_ms"] for r in results)]. *)
Fixpoint sum_times (acc : number) (results : list pyobj) : outcome number :=
  match results with
  | [] => Ok acc
  | r :: results' =>
      (t <-- getitem r "execution_time_ms" ;;
       acc' <-- py_add acc t ;;
       sum_times acc' results')%outcome
  end.

(** [sum(scores) / total if total > 0 else 0]: the sum is not evaluated
    when there is nothing to divide by. *)
Definition mean_score (results : list pyobj) : outcome number :=
  let total := Z.of_nat (length results) in
  if 0 <? total
  then (s <-- sum_scores (NInt 0) results ;; py_truediv s total)%outcome
  else Ok (NInt 0).

(** [d[k].append(r)] on a [defaultdict(list)]; a [dict] keeps its keys in
    the order of their first insertion. *)
Fixpoint dict_append (k : pyval) (r : pyobj) (d : list (pyval * list pyobj))
  : list (pyval * list pyobj) :=
  match d with
  | [] => [(k, [r])]
  | (k', rs) :: d' =>
      if py_eqb k' k then (k', (rs ++ [r])%list) :: d'
      else (k', rs) :: dict_append k r d'
  end.

(** The loop [for r in results: results_by_category[r['category']].append(r)]. *)
Fixpoint group_by_category (d : list (pyval * list pyobj)) (results : list pyobj)
  : outcome (list (pyval * list pyobj)) :=
  match results with
  | [] => Ok d
  | r :: results' =>
      (c <-- getitem r "category" ;;
       if hashable c
       then group_by_category (dict_append c r d) results'
       else Raise (TypeError "unhashable type: 'list'"))%outcome
  end.

(** The body of the loop over [results_by_category.items()]. *)
Definition category_summary (cat_results : list pyobj)
  : outcome CategorySummary.t :=
  let cat_total := Z.of_nat (length cat_results) in
  (cat_passed <-- sum_passed 0 cat_results ;;
   score <-- mean_score cat_results ;;
   Ok {| CategorySummary.score := score;
         CategorySummary.tests_run := cat_total;
         CategorySummary.passed := cat_passed;
         CategorySummary.failed := cat_total - cat_passed |})%outcome.

Fixpoint summarize_categories (items : list (pyval * list pyobj))
  : outcome (list (pyval * CategorySummary.t)) :=
  match items with
  | [] => Ok []
  | (category, cat_results) :: items' =>
      (s <-- category_summary cat_results ;;
       rest <-- summarize_categories items' ;;
       Ok ((category, s) :: rest))%outcome
  end.

(** The local variables of [generate_html_report] before [summary] is
    formatted (lines 12 to 31). *)
Record ReportLocals : Type := {
  total_tests : Z;
  passed_tests : Z;
  failed_tests : Z;
  average_score : number;
  total_time_s : number;
  results_by_category : list (pyval * list pyobj);
  summary_by_category : list (pyval * CategorySummary.t)
}.

Definition report_locals (results : list pyobj) : outcome ReportLocals :=
  let total_tests := Z.of_nat (length results) in
  (passed_tests <-- sum_passed 0 results ;;
   let failed_tests := total_tests - passed_tests in
   average_score <-- mean_score results ;;
   times <-- sum_times (NInt 0) results ;;
   total_time_s <-- py_truediv times 1000 ;;
   results_by_category <-- group_by_category [] results ;;
   summary_by_category <-- summarize_categories results_by_category ;;
   Ok {| total_tests := total_tests;
         passed_tests := passed_tests;
         failed_tests := failed_tests;
         average_score := average_score;
         total_time_s := total_time_s;
         results_by_category := results_by_category;
         summary_by_category := summary_by_category |})%outcome.

(** [d.get(k)] on a dictionary in insertion order. *)
Fixpoint dict_get {V} (k : pyval) (d : list (pyval * V)) : option V :=
  match d with
  | [] => None
  | (k', v) :: d' => if py_eqb k' k then Some v else dict_get k d'
  end.

Section Reporter.
Context `{Env}.

(** The [summary] dictionary (lines 33 to 39). *)
Definition report_summary (l : ReportLocals) : Summary.t :=
  {| Summary.total_tests := total_tests l;
     Summary.passed := passed_tests l;
     Summary.failed := failed_tests l;
     Summary.average_score := format_2f (average_score l);
     Summary.execution_time := format_2f (total_time_s l) ++ "s" |}.

Definition generate_html_report (results : list pyobj) (output_path : string)
  : M unit :=
  (l <- lift (report_locals results) ;;
   let summary := report_summary l in
   html_content <- lift (render_report summary (summary_by_category l) results) ;;
   emit (EvWrite output_path html_content) ;;;
   lift (write_text output_path html_content))%M.

End Reporter.

(* ===================================================================== *)
(** ** benchmark.py *)
(* ===================================================================== *)

(** The dictionary [_call_llm] returns. *)
Module LLMResult.
Record t : Type := {
  actual_output : string;
  prompt_tokens : Z;
  completion_tokens : Z;
  execution_time_ms : Q;
  error : option string
}.
End LLMResult.

(** Truth value of [llm_result["error"]], [None] or a [str]. *)
Definition error_truthy (error : option string) : bool :=
  match error with
  | None => false
  | Some msg => truthy (PStr msg)
  end.

Section Benchmark.
Context `{Scorers} `{Env}.

Definition _load_test (test_path : string) : M TestDefinition :=
  (emit (EvLoad test_path) ;;;
   data <- lift (json_load test_path) ;;
   lift (TestDefinition_init data))%M.

Definition _call_llm (test_case : TestCase) (model : string) : M LLMResult.t :=
  (start_time <- time ;;
   emit (EvChat model test_case) ;;;
   match chat_completions_create model test_case with
   | inr response =>
       now <- time ;;
       let execution_time_ms := Qred ((now - start_time) * 1000) in
       ret {| LLMResult.actual_output := content response;
              LLMResult.prompt_tokens := usage_prompt_tokens response;
              LLMResult.completion_tokens := usage_completion_tokens response;
              LLMResult.execution_time_ms := execution_time_ms;
              LLMResult.error := None |}
   | inl msg =>
       now <- time ;;
       let execution_time_ms := Qred ((now - start_time) * 1000) in
       ret {| LLMResult.actual_output := "";
              LLMResult.prompt_tokens := 0;
              LLMResult.completion_tokens := 0;
              LLMResult.execution_time_ms := execution_time_ms;
              LLMResult.error := Some msg |}
   end)%M.

(** The dictionary built when the backend failed has a third key,
  ["error"], that nothing reads; [EvalResult.t] leaves it out. The call
  of the dispatcher is recorded just before it is made. *)
Definition run_test (test_path : string) (model : string) : M TestResult.t :=
  (test_def <- _load_test test_path ;;
   llm_result <- _call_llm (test_case test_def) model ;;
   eval_result <-
     (if error_truthy (LLMResult.error llm_result)
      then ret {| EvalResult.score := 0%Q; EvalResult.passed := false |}
      else
        emit (EvEvaluate (LLMResult.actual_output llm_result)
                         (evaluation test_def)) ;;;
        lift (evaluate_response (LLMResult.actual_output llm_result)
                                (evaluation test_def))) ;;
   ret {| TestResult.test_id := test_id test_def;
          TestResult.passed := EvalResult.passed eval_result;
          TestResult.score := EvalResult.score eval_result;
          TestResult.actual_output := LLMResult.actual_output llm_result;
          TestResult.expected_output := expected_answer (evaluation test_def);
          TestResult.error_message := LLMResult.error llm_result;
          TestResult.execution_time_ms := LLMResult.execution_time_ms llm_result;
          TestResult.prompt_tokens := Some (LLMResult.prompt_tokens llm_result);
          TestResult.completion_tokens :=
            Some (LLMResult.completion_tokens llm_result) |})%M.

(** The loop [for test_file in test_files: results.append(run_test(...))]. *)
Fixpoint run_tests (results : list TestResult.t) (test_files : list string)
  (model : string) : M (list TestResult.t) :=
  match test_files with
  | [] => ret results
  | test_file :: test_files' =>
      (r <- run_test test_file model ;;
       run_tests (results ++ [r])%list test_files' model)%M
  end.

Definition run_category (category_path : string) (model : string)
  : M (list TestResult.t) :=
  let test_files := sorted_glob category_path "*.json" in
  run_tests [] test_files model.

Definition run_all (tests_dir : string) (model : string)
  : M (list TestResult.t) :=
  let test_files := sorted_rglob tests_dir "*.json" in
  run_tests [] test_files model.

Definition generate_report (results : list TestResult.t) (output_path : string)
  : M unit :=
  (generate_html_report (map OTestResult results) output_path ;;;
   emit (EvPrint ("Report generated at: " ++ output_path)))%M.

End Benchmark.

(* ===================================================================== *)
(** ** A small concrete world, to run the definitions *)
(* ===================================================================== *)

Module Demo.

(** Search of a pattern made of literal characters only. *)
Fixpoint literal_search_from (fuel : nat) (pattern s : string) : bool :=
  if String.prefix pattern s then true
  else match fuel, s with
       | S fuel', String _ s' => literal_search_from fuel' pattern s'
       | _, _ => false
       end.

Definition literal_search (pattern s : string) : outcome bool :=
  Ok (literal_search_from (String.length s) pattern s).

(** An overlap score that tells equal from different strings; it gives 0
    to an empty target or prediction. *)
Definition equal_overlap (target prediction : string) : Q :=
  if String.eqb prediction "" || String.eqb target "" then 0%Q
  else if String.eqb target prediction then 1%Q else 0%Q.

Definition scorers : Scorers :=
  {| rouge_fmeasure := fun _ _ => equal_overlap;
     bert_scorer := fun _ _ _ => (1 # 2)%Q;
     re_search := literal_search;
     py_repr := fun _ => "" |}.

Definition params : TestCaseParameters :=
  {| temperature := 0%Q; max_tokens := 512; top_p := 1%Q |}.

Definition case_of (prompt : string) : TestCase :=
  {| system_prompt := "You are a helpful assistant.";
     user_prompt := prompt;
     context := None;
     parameters := params |}.

Definition meta : TestMetadata :=
  {| created_at := "2024-01-01T00:00:00"; author := None; tags := [];
     difficulty := medium |}.

Definition definition_of (id prompt : string) (ev : Evaluation)
  : TestDefinition :=
  {| test_id := id; version := "1.0"; metadata := meta;
     test_case := case_of prompt; evaluation := ev |}.

Definition capital : Evaluation :=
  {| type := "exact_match"; expected_answer := PStr "Paris";
     acceptable_variations := Some ["paris"; "PARIS"];
     regex_pattern := None |}.

Definition sentiment : Evaluation :=
  {| type := "sentiment"; expected_answer := PStr "positive";
     acceptable_variations := None; regex_pattern := None |}.

Definition blank : Evaluation :=
  {| type := "exact_match"; expected_answer := PStr "";
     acceptable_variations := None; regex_pattern := None |}.

(** The same reference under the kind the specification names and under
    the key the dispatch table has. *)
Definition semantic_similarity : Evaluation :=
  {| type := "semantic_similarity"; expected_answer := PStr "positive";
     acceptable_variations := None; regex_pattern := None |}.

Definition bert_score : Evaluation :=
  {| type := "bert_score"; expected_answer := PStr "positive";
     acceptable_variations := None; regex_pattern := None |}.

(** Three test files; the backend answers the first two prompts and
    raises an exception without a message on the third and one with a
    message on any other. *)
Definition load (path : string) : outcome TestDefinition :=
  if String.eqb path "tests/a.json" then Ok (definition_of "a" "mood?" sentiment)
  else if String.eqb path "tests/b.json" then Ok (definition_of "b" "capital?" capital)
  else if String.eqb path "tests/c.json" then Ok (definition_of "c" "blank?" blank)
  else if String.eqb path "tests/d.json" then Ok (definition_of "d" "down?" capital)
  else Raise (OtherError "FileNotFoundError" path).

Definition backend (model : string) (tc : TestCase) : string + ChatCompletion :=
  if String.eqb (user_prompt tc) "mood?"
  then inr {| content := "positive"; usage_prompt_tokens := 9;
              usage_completion_tokens := 1 |}
  else if String.eqb (user_prompt tc) "capital?"
  then inr {| content := " paris "; usage_prompt_tokens := 9;
              usage_completion_tokens := 1 |}
  else if String.eqb (user_prompt tc) "blank?" then inl ""
  else inl "Connection error.".

Definition env : Env :=
  {| json := TestDefinition;
     json_load := load;
     TestDefinition_init := Ok;
     chat_completions_create := backend;
     time_time := fun n => inject_Z (Z.of_nat n);
     sorted_glob := fun _ _ => ["tests/b.json"; "tests/d.json"];
     sorted_rglob := fun _ _ => ["tests/a.json"; "tests/b.json"];
     format_2f := fun _ => "";
     render_report := fun _ _ _ => Ok "<html></html>";
     write_text := fun _ _ => Ok tt |}.

End Demo.

(* ===================================================================== *)
(** ** Reading a list of results *)
(* ===================================================================== *)

(** The definitions of this part are not in the source: they say, without
    exceptions, what the sums and groups of the reporter amount to. *)

(** [TestResult.model_dump()]: the fields of a result as a dictionary. *)
Definition model_dump (r : TestResult.t) : gmap string pyval :=
  list_to_map
    [("test_id", PStr (TestResult.test_id r));
     ("passed", PBool (TestResult.passed r));
     ("score", PFloat (TestResult.score r));
     ("actual_output", PStr (TestResult.actual_output r));
     ("expected_output", TestResult.expected_output r);
     ("error_message", from_option PStr PNone (TestResult.error_message r));
     ("execution_time_ms", PFloat (TestResult.execution_time_ms r));
     ("prompt_tokens", from_option PInt PNone (TestResult.prompt_tokens r));
     ("completion_tokens", from_option PInt PNone (TestResult.completion_tokens r))].

(** The value under a key, [None] when the lookup raises. *)
Definition field (r : pyobj) (key : string) : pyval :=
  match getitem r key with
  | Ok v => v
  | Raise _ => PNone
  end.

Definition passed_of (r : pyobj) : bool := truthy (field r "passed").

Definition score_of (r : pyobj) : option Q :=
  number_Q <$> as_number (field r "score").

Definition category_of (r : pyobj) : pyval := field r "category".

Definition is_number (v : pyval) : bool :=
  match as_number v with
  | Some _ => true
  | None => false
  end.

Definition is_none (v : pyval) : bool :=
  match v with
  | PNone => true
  | _ => false
  end.

(** A result the reporter can read: a dictionary with the four keys, a
    score that is a number or [None], a time that is a number and a
    hashable category. *)
Definition well_formed (r : pyobj) : bool :=
  match getitem r "passed", getitem r "score",
        getitem r "execution_time_ms", getitem r "category" with
  | Ok _, Ok s, Ok t, Ok c => (is_none s || is_number s) && is_number t && hashable c
  | _, _, _, _ => false
  end.

Definition sum_Q (l : list Q) : Q := fold_right Qplus 0%Q l.

Definition defined_scores (results : list pyobj) : list Q :=
  omap score_of results.

Definition count_passed (results : list pyobj) : Z :=
  Z.of_nat (length (List.filter passed_of results)).

(** The sum of the defined scores over the number of results. *)
Definition mean_value (results : list pyobj) : number :=
  match results with
  | [] => NInt 0
  | _ :: _ =>
      NFloat (Qred (sum_Q (defined_scores results)
                    / inject_Z (Z.of_nat (length results))))
  end.

Definition summary_of (cat_results : list pyobj) : CategorySummary.t :=
  {| CategorySummary.score := mean_value cat_results;
     CategorySummary.tests_run := Z.of_nat (length cat_results);
     CategorySummary.passed := count_passed cat_results;
     CategorySummary.failed :=
       Z.of_nat (length cat_results) - count_passed cat_results |}.

(** The results filed under the key [k]. *)
Definition in_category (k : pyval) (results : list pyobj) : list pyobj :=
  List.filter (fun r => py_eqb (category_of r) k) results.


Definition time_of (r : pyobj) : Q :=
  from_option number_Q 0%Q (as_number (field r "execution_time_ms")).

(** The sum of the times over 1000. *)
Definition total_time_value (results : list pyobj) : number :=
  NFloat (Qred (sum_Q (map time_of results) / inject_Z 1000)).

(** The groups after the results are filed, one by one, into [d]. *)
Definition groups_of (d : list (pyval * list pyobj)) (results : list pyobj)
  : list (pyval * list pyobj) :=
  fold_left (fun d r => dict_append (category_of r) r d) results d.

(** What [report_locals] returns when it returns. *)
Definition locals_of (results : list pyobj) : ReportLocals :=
  {| total_tests := Z.of_nat (length results);
     passed_tests := count_passed results;
     failed_tests := Z.of_nat (length results) - count_passed results;
     average_score := mean_value results;
     total_time_s := total_time_value results;
     results_by_category := groups_of [] results;
     summary_by_category :=
       map (fun '(k, g) => (k, summary_of g)) (groups_of [] results) |}.

(** A result dictionary with the four keys the reporter reads. *)
Definition result_dict (passed score time category : pyval) : pyobj :=
  ODict (list_to_map
           [("passed", passed); ("score", score);
            ("execution_time_ms", time); ("category", category)]).

(** Lists of results to run the reporter on. *)
Module DemoResults.

(** Three trials in two categories. *)
Definition trials : list pyobj :=
  [result_dict (PBool true) (PFloat 1) (PFloat 120) (PStr "math");
   result_dict (PBool false) (PFloat 0) (PFloat 80) (PStr "math");
   result_dict (PBool true) (PFloat (8 # 10)) (PFloat 100) (PStr "lang")].

(** The same trials in another order. *)
Definition shuffled : list pyobj :=
  [result_dict (PBool true) (PFloat (8 # 10)) (PFloat 100) (PStr "lang");
   result_dict (PBool false) (PFloat 0) (PFloat 80) (PStr "math");
   result_dict (PBool true) (PFloat 1) (PFloat 120) (PStr "math")].

(** Two trials of one category, the second without a score. *)
Definition unscored : list pyobj :=
  [result_dict (PBool true) (PFloat 1) (PFloat 120) (PStr "math");
   result_dict (PBool false) PNone (PFloat 80) (PStr "math")].

End DemoResults.

(* ===================================================================== *)
(** ** The constructor of [LLMBenchmark] and cli.py *)
(* ===================================================================== *)

(** What the constructor and the command line read and show.
    - [getenv name] is [os.getenv(name)] once [load_dotenv()] has run;
    - [render_table title rows] is the text [console.print(table)] shows for
      the table with that title, the four columns of [run] and these rows.
    The spinner of [console.status] is shown while a test runs and leaves
    no mark: it is not recorded. *)
Class Shell : Type := {
  getenv : string -> option string;
  render_table : string -> list (list string) -> string
}.

(** Truth value of an [Optional[str]]. *)
Definition optional_truthy (o : option string) : bool :=
  match o with
  | None => false
  | Some s => negb (String.eqb s "")
  end.

(** [a or b] on two [Optional[str]]. *)
Definition optional_or (a b : option string) : option string :=
  if optional_truthy a then a else b.

Module LLMBenchmark.
Record t : Type := {
  api_key : option string;
  base_url : option string
}.
End LLMBenchmark.

(** [LLMBenchmark.__init__]; the client it builds is the backend of [Env]. *)
Definition LLMBenchmark_init `{Shell} (api_key base_url : option string)
  : outcome LLMBenchmark.t :=
  let self_api_key := optional_or api_key (getenv "OPENAI_API_KEY") in
  let self_base_url := optional_or base_url (getenv "BASE_URL") in
  if negb (optional_truthy self_api_key)
  then Raise (ValueError
                "API key must be provided or set in .env file as OPENAI_API_KEY")
  else Ok {| LLMBenchmark.api_key := self_api_key;
             LLMBenchmark.base_url := self_base_url |}.

Module cli.

(** The two marks of the [Passed] column, as their UTF-8 bytes. *)
Definition status_of (passed : bool) : string :=
  if passed then "[bold green]✔[/bold green]" else "[bold red]✖[/bold red]".

(** [sum(1 for res in results if res.passed)]. *)
Definition passed_count (results : list TestResult.t) : Z :=
  fold_left (fun acc res => if TestResult.passed res then acc + 1 else acc)
    results 0.

(** [sum(res.score for res in results)]. *)
Definition total_score (results : list TestResult.t) : number :=
  fold_left (fun acc res => number_add acc (NFloat (TestResult.score res)))
    results (NInt 0).

Section Run.
Context `{Scorers} `{Env} `{Shell}.

Definition table_row (res : TestResult.t) : list string :=
  [TestResult.test_id res;
   status_of (TestResult.passed res);
   format_2f (NFloat (TestResult.score res));
   format_2f (NFloat (TestResult.execution_time_ms res))].

(** What [run] prints once the tests have run. *)
Definition display (model : string) (results : list TestResult.t) : M unit :=
  match results with
  | [] => emit (EvPrint "[yellow]No tests were run.[/yellow]")
  | _ :: _ =>
      let n := Z.of_nat (length results) in
      let passed_count := passed_count results in
      let total_score := total_score results in
      (emit (EvPrint (render_table
                        ("Benchmark Results for [bold cyan]" ++ model
                           ++ "[/bold cyan]")
                        (map table_row results))) ;;;
       let summary_style :=
         if passed_count =? n then "bold green" else "bold yellow" in
       emit (EvPrint ("[" ++ summary_style ++ "]Summary: "
                        ++ pretty passed_count ++ "/" ++ pretty n
                        ++ " tests passed. Average Score: "
                        ++ format_2f (number_div total_score n)
                        ++ "[/" ++ summary_style ++ "]")))%M
  end.

(** The command [run]; a path option that was not given is [None]. *)
Definition run (test_path category_path : option string) (model : string)
  (api_key base_url : option string) : M unit :=
  if negb (optional_truthy api_key)
  then
    (emit (EvPrint "[bold red]Error: API key not found.[/bold red]") ;;;
     emit (EvPrint
             "Please provide it with --api-key or set a DECIPHER_API_KEY env var."))%M
  else
    match test_path, category_path with
    | None, None =>
        emit (EvPrint
                "[bold red]Error: You must specify --test or --category.[/bold red]")
    | _, _ =>
        (benchmark <- lift (LLMBenchmark_init api_key base_url) ;;
         results <-
           match test_path with
           | Some path => (result <- run_test path model ;; ret [result])
           | None => ret []
           end ;;
         results <-
           match category_path with
           | Some dir =>
               let files := sorted_glob dir "**/*.json" in
               run_tests results files model
           | None => ret results
           end ;;
         display model results)%M
    end.

End Run.

End cli.

(* ===================================================================== *)
(** ** Notions the further properties are stated with *)
(* ===================================================================== *)

(** A string of whitespace only. *)
Fixpoint whitespace (s : string) : bool :=
  match s with
  | EmptyString => true
  | String c s' => isspace c && whitespace s'
  end.

Definition sum_Z (l : list Z) : Z := fold_right Z.add 0 l.

(** No key of the dictionary equals a later one. *)
Fixpoint keys_distinct {V} (d : list (pyval * V)) : Prop :=
  match d with
  | [] => True
  | (k, _) :: d' =>
      Forall (fun kv => py_eqb k (fst kv) = false) d' /\ keys_distinct d'
  end.

(** The four keys the reporter reads. *)
Definition report_keys : list string :=
  ["passed"; "score"; "execution_time_ms"; "category"].

(** The exceptions of reading a result: a [KeyError] on one of the four
    keys, or a [TypeError]. *)
Definition reader_error (e : exn) : Prop :=
  (exists key, In key report_keys /\ e = KeyError key)
  \/ exists msg, e = TypeError msg.

(** The files of a command line: the single test first, then the sorted
    files of the category directory. *)
Definition cli_files `{Env} (test_path category_path : option string)
  : list string :=
  (option_list test_path
   ++ match category_path with
      | Some dir => sorted_glob dir "**/*.json"
      | None => []
      end)%list.

(** A command-line world: no variable is set and a table is shown as its
    rows joined. *)
Module DemoShell.

Definition shell : Shell :=
  {| getenv := fun _ => None;
     render_table := fun title rows =>
       title ++ String.concat "|" (map (String.concat ",") rows) |}.

End DemoShell.

(** What a number weighs in a sum of the reporter: the magnitude of an
    [int], nothing for a [float]. *)
Definition number_weight (n : number) : Z :=
  match n with
  | NInt z => Z.abs z
  | NFloat _ => 0
  end.

Definition int_weight (v : pyval) : Z :=
  from_option number_weight 0 (as_number v).

Definition score_weight (results : list pyobj) : Z :=
  sum_Z (map (fun r => int_weight (field r "score")) results).

Definition time_weight (results : list pyobj) : Z :=
  sum_Z (map (fun r => int_weight (field r "execution_time_ms")) results).

(** The [int] scores and the [int] times stay, added up in magnitude, below
    the largest float: no sum of the reporter can then leave the float
    range. Results whose scores and times are floats are always so. *)
Definition within_float_range (results : list pyobj) : bool :=
  (score_weight results <? float_limit) && (time_weight results <? float_limit).

Definition overflow_error (e : exn) : Prop :=
  exists msg, e = OtherError "OverflowError" msg.

(* ===================================================================== *)
(** ** The mean of the reporter in binary64 *)
(* ===================================================================== *)

(** A Python [float] is a binary64 number and a sum of floats rounds at
    every step. This module reads [sum(scores) / total] of lines 15 and 27
    of reporters.py with the arithmetic of the machine, on scores that are
    all floats. *)
Module Binary64.
Import PrimFloat.

(** An [int] as a float: exact below [2 ^ 53] and on the powers of two. *)
Fixpoint of_pos (p : positive) : float :=
  match p with
  | xH => one
  | xO p' => mul two (of_pos p')
  | xI p' => add (mul two (of_pos p')) one
  end.

Definition of_Z (z : Z) : float :=
  match z with
  | Z0 => zero
  | Zpos p => of_pos p
  | Zneg p => opp (of_pos p)
  end.

(** The float a rational of the other parts stands for: exact when the
    numerator is below [2 ^ 53] and the denominator a power of two. *)
Definition of_Q (q : Q) : float := div (of_Z (Qnum q)) (of_pos (Qden q)).

(** [sum(xs)] before Python 3.12: the floats are added to the [int] 0 from
    the left. *)
Definition plain_sum (xs : list float) : float := fold_left add xs zero.

(** [sum(xs)] since Python 3.12: once the total [f] is a float,
    [builtin_sum] keeps a compensation [c] of what the additions lost
    (Neumaier's variant of Kahan's summation) and adds it at the end. *)
Definition compensated_step (fc : float * float) (x : float) : float * float :=
  let '(f, c) := fc in
  let t := add f x in
  (t, if leb (abs x) (abs f)
      then add c (add (sub f t) x)
      else add c (add (sub x t) f)).

Definition compensated_sum (xs : list float) : float :=
  match xs with
  | [] => zero
  | x :: xs' =>
      let '(f, c) := fold_left compensated_step xs' (add zero x, zero) in
      if negb (is_zero c) && is_finite c then add f c else f
  end.

(** [sum(scores) / total if total > 0 else 0], with either sum. *)
Definition average_score (sum : list float -> float) (scores : list float)
  : float :=
  match scores with
  | [] => zero
  | _ :: _ => div (sum scores) (of_Z (Z.of_nat (length scores)))
  end.

(** The defined scores of a list of results, as floats. *)
Definition scores_of (results : list pyobj) : list float :=
  map of_Q (defined_scores results).

(** Four trials of one category with the float scores
    [0x1.5555555555555p-2] (0.3333333333333333), [0x1p-106],
    [0x1.6666666666666p-1] (0.7) and [0x1p-54]. *)
Definition trials : list pyobj :=
  [result_dict (PBool true) (PFloat (6004799503160661 # 18014398509481984))
     (PFloat 100) (PStr "math");
   result_dict (PBool false)
     (PFloat (1 # 81129638414606681695789005144064))
     (PFloat 100) (PStr "math");
   result_dict (PBool true) (PFloat (3152519739159347 # 4503599627370496))
     (PFloat 100) (PStr "math");
   result_dict (PBool false) (PFloat (1 # 18014398509481984))
     (PFloat 100) (PStr "math")].

(** Their scores as floats. *)
Definition trial_scores : list float :=
  [0x1.5555555555555p-2; 0x1p-106; 0x1.6666666666666p-1; 0x1p-54]%float.

(** 0.2583333333333333 and 0.25833333333333336, one unit in the last place
    apart. *)
Definition mean_below : float := 0x1.0888888888888p-2%float.
Definition mean_above : float := 0x1.0888888888889p-2%float.

(** The same trials in another order. *)
Definition shuffled : list pyobj :=
  [result_dict (PBool false)
     (PFloat (1 # 81129638414606681695789005144064))
     (PFloat 100) (PStr "math");
   result_dict (PBool false) (PFloat (1 # 18014398509481984))
     (PFloat 100) (PStr "math");
   result_dict (PBool true) (PFloat (3152519739159347 # 4503599627370496))
     (PFloat 100) (PStr "math");
   result_dict (PBool true) (PFloat (6004799503160661 # 18014398509481984))
     (PFloat 100) (PStr "math")].

End Binary64.

(* ===================================================================== *)
(** * Properties *)
(* ===================================================================== *)

(* ===================================================================== *)
(** ** The dispatcher *)
(* ===================================================================== *)

Section DispatchFacts.
Context `{Scorers}.

Lemma eval_functions_dom :
  dom eval_functions = ({["exact_match"; "regex_match"; "bert_score"]} : gset string).
Proof.
  unfold eval_functions. rewrite !dom_insert_L, dom_empty_L. set_solver.
Qed.

Lemma evaluate_response_exact response ev :
  type ev = "exact_match" ->
  evaluate_response response ev = exact_match_evaluator response ev.
Proof. intros E. unfold evaluate_response. rewrite E. reflexivity. Qed.

Lemma evaluate_response_regex response ev :
  type ev = "regex_match" ->
  evaluate_response response ev = regex_match_evaluator response ev.
Proof. intros E. unfold evaluate_response. rewrite E. reflexivity. Qed.

Lemma evaluate_response_bert response ev :
  type ev = "bert_score" ->
  evaluate_response response ev = bertscore_evaluator response ev.
Proof. intros E. unfold evaluate_response. rewrite E. reflexivity. Qed.

Lemma evaluate_response_unknown response ev :
  type ev <> "exact_match" -> type ev <> "regex_match" ->
  type ev <> "bert_score" ->
  evaluate_response response ev
  = Raise (ValueError ("Unknown evaluation type: " ++ type ev)).
Proof.
  intros N1 N2 N3. unfold evaluate_response, eval_functions.
  rewrite !lookup_insert_ne, lookup_empty by congruence. reflexivity.
Qed.

End DispatchFacts.

(** C3 fails as stated: [semantic_similarity] is not a key of the dispatch
    table. An evaluation of that kind is refused with the unknown-type
    [ValueError], and the same evaluation under the kind [bert_score],
    which the claim's set does not hold, is scored by the
    semantic-similarity strategy. *)
Lemma semantic_similarity_is_refused :
  @evaluate_response Demo.scorers "positive" Demo.semantic_similarity
  = Raise (ValueError "Unknown evaluation type: semantic_similarity")
  /\ @evaluate_response Demo.scorers "positive" Demo.bert_score
     = @bertscore_evaluator Demo.scorers "positive" Demo.bert_score
  /\ @evaluate_response Demo.scorers "positive" Demo.bert_score
     = Ok {| EvalResult.score := 1 # 2; EvalResult.passed := true |}.
Proof.
  split; [vm_compute; reflexivity |].
  split; vm_compute; reflexivity.
Qed.

(** C3, as the code has it. The dispatch table of [evaluate_response] has
    exactly the three keys [exact_match], [regex_match] and [bert_score],
    the last being the key of the semantic-similarity strategy; on each of
    them the dispatcher returns what the matching strategy returns,
    unchanged, and on every other [type], [semantic_similarity] included,
    it raises the unknown-type [ValueError]. *)
Theorem evaluate_response_closed_dispatch `{Scorers} :
  dom eval_functions
  = ({["exact_match"; "regex_match"; "bert_score"]} : gset string)
  /\ forall response ev,
       evaluate_response response ev
       = if String.eqb (type ev) "exact_match"
         then exact_match_evaluator response ev
         else if String.eqb (type ev) "regex_match"
         then regex_match_evaluator response ev
         else if String.eqb (type ev) "bert_score"
         then bertscore_evaluator response ev
         else Raise (ValueError ("Unknown evaluation type: " ++ type ev)).
Proof.
  split; [apply eval_functions_dom |].
  intros response ev.
  destruct (String.eqb_spec (type ev) "exact_match") as [E1 | N1];
    [now apply evaluate_response_exact |].
  destruct (String.eqb_spec (type ev) "regex_match") as [E2 | N2];
    [now apply evaluate_response_regex |].
  destruct (String.eqb_spec (type ev) "bert_score") as [E3 | N3];
    [now apply evaluate_response_bert |].
  now apply evaluate_response_unknown.
Qed.

(* ===================================================================== *)
(** ** The scoring strategies *)
(* ===================================================================== *)

Section StrategyFacts.
Context `{Scorers}.

Lemma regex_match_evaluator_some response ev pattern :
  regex_pattern ev = Some pattern -> pattern <> "" ->
  regex_match_evaluator response ev
  = obind (re_search pattern response)
      (fun is_match =>
         Ok {| EvalResult.score := if is_match then 1%Q else 0%Q;
               EvalResult.passed := is_match |}).
Proof.
  intros E N. unfold regex_match_evaluator. rewrite E.
  destruct pattern; [congruence | reflexivity].
Qed.

Lemma regex_match_evaluator_missing response ev :
  regex_pattern ev = None \/ regex_pattern ev = Some "" ->
  regex_match_evaluator response ev
  = Raise (ValueError "Regex pattern not provided for regex_match evaluator.").
Proof.
  intros [E | E]; unfold regex_match_evaluator; rewrite E; reflexivity.
Qed.

Lemma bertscore_evaluator_not_str response ev :
  (forall s, expected_answer ev <> PStr s) ->
  bertscore_evaluator response ev
  = Raise (TypeError "expected_answer must be a string for BERTScore.").
Proof.
  intros N. unfold bertscore_evaluator.
  destruct (expected_answer ev) eqn:E; try reflexivity.
  now destruct (N s).
Qed.

Lemma exact_match_passed_iff response ev :
  let reference := strip (py_str (expected_answer ev)) in
  let variations := default [] (acceptable_variations ev) in
  exists res,
    exact_match_evaluator response ev = Ok res
    /\ EvalResult.score res
       = rouge_fmeasure "rougeL" true reference (strip response)
    /\ (EvalResult.passed res = true
        <-> strip response = reference
            \/ exists var, In var variations /\ strip response = strip var).
Proof.
  intros reference variations. unfold exact_match_evaluator.
  fold reference. fold variations.
  eexists. split; [reflexivity |]. split; [reflexivity |]. simpl.
  destruct (String.eqb_spec (strip response) reference) as [E | N]; simpl.
  - split; [now left | reflexivity].
  - case_bool_decide as Hv; simpl.
    + rewrite Hv. split; [discriminate |].
      intros [E | (var & [] & _)]. contradiction.
    + rewrite existsb_exists. split.
      * intros (var & Hin & Heq). right. exists var. split; [exact Hin |].
        now apply String.eqb_eq.
      * intros [E | (var & Hin & Heq)]; [contradiction |].
        exists var. split; [exact Hin |]. now apply String.eqb_eq.
Qed.

End StrategyFacts.

(** C8. For a [regex_match] evaluation with a non-empty pattern that [re]
    accepts as a regular expression, the verdict is the result of
    [re.search] on the response as it came (not stripped), and the score
    is 1 when it matched and 0 when it did not; the dispatcher returns the
    same. *)
Theorem regex_match_search_binary `{Scorers} (response : string)
  (ev : Evaluation) (pattern : string) (is_match : bool) :
  regex_pattern ev = Some pattern -> pattern <> "" ->
  re_search pattern response = Ok is_match ->
  regex_match_evaluator response ev
  = Ok {| EvalResult.score := if is_match then 1%Q else 0%Q;
          EvalResult.passed := is_match |}
  /\ (type ev = "regex_match" ->
      evaluate_response response ev = regex_match_evaluator response ev).
Proof.
  intros E N S. split.
  - rewrite (regex_match_evaluator_some _ _ _ E N), S. reflexivity.
  - apply evaluate_response_regex.
Qed.

Lemma regex_match_search_binary_witness :
  let ev := {| type := "regex_match"; expected_answer := PNone;
               acceptable_variations := None;
               regex_pattern := Some "555-1234" |} in
  @regex_match_evaluator Demo.scorers "call 555-1234 now" ev
  = Ok {| EvalResult.score := 1%Q; EvalResult.passed := true |}
  /\ @regex_match_evaluator Demo.scorers "call 555-0000 now" ev
     = Ok {| EvalResult.score := 0%Q; EvalResult.passed := false |}.
Proof.
  split.
  - apply (@regex_match_search_binary Demo.scorers "call 555-1234 now" _
             "555-1234" true); [reflexivity | discriminate | reflexivity].
  - apply (@regex_match_search_binary Demo.scorers "call 555-0000 now" _
             "555-1234" false); [reflexivity | discriminate | reflexivity].
Defined.

(** C7, as the code has it. [exact_match] passes exactly when the stripped
    response equals the stripped [str] of the expected answer or some
    stripped variation; the score is the ROUGE-L F-measure (stemming on) of
    the stripped reference and the stripped response, whatever the verdict.
    A response that strips to the empty string fails when the stripped
    reference is not empty and no variation strips to the empty string, and
    its score is 0 as ROUGE-L gives 0 to an empty prediction. *)
Theorem exact_match_verdict_and_overlap `{Scorers} (response : string)
  (ev : Evaluation) :
  let reference := strip (py_str (expected_answer ev)) in
  let variations := default [] (acceptable_variations ev) in
  exists res,
    exact_match_evaluator response ev = Ok res
    /\ (EvalResult.passed res = true
        <-> strip response = reference
            \/ exists var, In var variations /\ strip response = strip var)
    /\ EvalResult.score res
       = rouge_fmeasure "rougeL" true reference (strip response)
    /\ (strip response = "" -> reference <> "" ->
        (forall var, In var variations -> strip var <> "") ->
        EvalResult.passed res = false)
    /\ (strip response = "" ->
        rouge_fmeasure "rougeL" true reference "" = 0%Q ->
        EvalResult.score res = 0%Q).
Proof.
  intros reference variations.
  destruct (exact_match_passed_iff response ev) as (res & Hres & Hscore & Hiff).
  fold reference in Hscore, Hiff. fold variations in Hiff.
  exists res. repeat split; try tauto.
  - intros Hempty Href Hvars.
    destruct (EvalResult.passed res) eqn:P; [| reflexivity].
    apply proj1 in Hiff. destruct (Hiff eq_refl) as [E | (var & Hin & E)].
    + congruence.
    + rewrite Hempty in E. symmetry in E. now destruct (Hvars var Hin).
  - intros Hempty Hzero. rewrite Hscore, Hempty. exact Hzero.
Qed.

Lemma exact_match_verdict_and_overlap_witness :
  exists res,
    @exact_match_evaluator Demo.scorers "  " Demo.capital = Ok res
    /\ EvalResult.passed res = false /\ EvalResult.score res = 0%Q.
Proof.
  destruct (@exact_match_verdict_and_overlap Demo.scorers "  " Demo.capital)
    as (res & Hres & _ & _ & Hfail & Hzero).
  exists res. split; [exact Hres |]. split.
  - apply Hfail; [reflexivity | discriminate |].
    intros var [E | [E | []]]; subst var; discriminate.
  - apply Hzero; reflexivity.
Defined.

(** C7 fails as stated: an empty response passes against the non-empty
    reference [" "], and against ["Paris"] when the empty string is listed
    as a variation. *)
Lemma exact_match_empty_response_passes :
  EvalResult.passed
    <$> outcome_value
          (@exact_match_evaluator Demo.scorers ""
             {| type := "exact_match"; expected_answer := PStr " ";
                acceptable_variations := None; regex_pattern := None |})
  = Some true
  /\ EvalResult.passed
       <$> outcome_value
             (@exact_match_evaluator Demo.scorers ""
                {| type := "exact_match"; expected_answer := PStr "Paris";
                   acceptable_variations := Some [""];
                   regex_pattern := None |})
     = Some true.
Proof. split; reflexivity. Qed.

(* ===================================================================== *)
(** ** Construction of an evaluation *)
(* ===================================================================== *)

(** C2 fails as stated: an unknown type, a [regex_match] without a pattern
    and a [bert_score] with an integer reference are all constructed. *)
Lemma Evaluation_init_accepts_violations :
  Evaluation_init {["type" := PStr "sentiment"]}
  = Ok {| type := "sentiment"; expected_answer := PNone;
          acceptable_variations := None; regex_pattern := None |}
  /\ Evaluation_init {["type" := PStr "regex_match"]}
     = Ok {| type := "regex_match"; expected_answer := PNone;
             acceptable_variations := None; regex_pattern := None |}
  /\ Evaluation_init (<["expected_answer" := PInt 42]> {["type" := PStr "bert_score"]})
     = Ok {| type := "bert_score"; expected_answer := PInt 42;
             acceptable_variations := None; regex_pattern := None |}.
Proof. repeat split; vm_compute; reflexivity. Qed.

(** C2, as the code has it. Construction checks the types of the fields
    only: any string is taken as [type], with or without a pattern and with
    any expected answer. An unknown type, a [regex_match] whose pattern is
    missing or empty and a [bert_score] whose expected answer is not a
    string are rejected when the evaluation is scored, by
    [evaluate_response]. *)
Theorem Evaluation_violations_raise_at_scoring `{Scorers}
  (data : gmap string pyval) (ty : string)
  (vars : option (list string)) (pat : option string) :
  data !! "type" = Some (PStr ty) ->
  validate_optional_list_str "acceptable_variations"
    (data !! "acceptable_variations") = Ok vars ->
  validate_optional_str "regex_pattern" (data !! "regex_pattern") = Ok pat ->
  let ev := {| type := ty;
               expected_answer := default PNone (data !! "expected_answer");
               acceptable_variations := vars;
               regex_pattern := pat |} in
  Evaluation_init data = Ok ev
  /\ forall response,
       (ty <> "exact_match" -> ty <> "regex_match" -> ty <> "bert_score" ->
        evaluate_response response ev
        = Raise (ValueError ("Unknown evaluation type: " ++ ty)))
       /\ (ty = "regex_match" -> pat = None \/ pat = Some "" ->
           evaluate_response response ev
           = Raise (ValueError
                      "Regex pattern not provided for regex_match evaluator."))
       /\ (ty = "bert_score" ->
           (forall s, default PNone (data !! "expected_answer") <> PStr s) ->
           evaluate_response response ev
           = Raise (TypeError
                      "expected_answer must be a string for BERTScore.")).
Proof.
  intros Hty Hvars Hpat ev. split.
  - unfold Evaluation_init. rewrite Hty. simpl. rewrite Hvars. simpl.
    rewrite Hpat. reflexivity.
  - intros response. repeat split.
    + intros N1 N2 N3. now apply evaluate_response_unknown.
    + intros E Hp. rewrite evaluate_response_regex by exact E.
      now apply regex_match_evaluator_missing.
    + intros E Hs. rewrite evaluate_response_bert by exact E.
      now apply bertscore_evaluator_not_str.
Qed.

Lemma Evaluation_violations_raise_at_scoring_witness :
  Evaluation_init {["type" := PStr "regex_match"]}
  = Ok {| type := "regex_match"; expected_answer := PNone;
          acceptable_variations := None; regex_pattern := None |}
  /\ @evaluate_response Demo.scorers "555-1234"
       {| type := "regex_match"; expected_answer := PNone;
          acceptable_variations := None; regex_pattern := None |}
     = Raise (ValueError "Regex pattern not provided for regex_match evaluator.").
Proof.
  destruct (@Evaluation_violations_raise_at_scoring Demo.scorers
              {["type" := PStr "regex_match"]} "regex_match" None None)
    as [Hinit Hscore]; [reflexivity | reflexivity | reflexivity |].
  split; [exact Hinit |].
  destruct (Hscore "555-1234") as (_ & Hregex & _).
  apply Hregex; [reflexivity | now left].
Defined.

(* ===================================================================== *)
(** ** The trial runner *)
(* ===================================================================== *)

Section RunnerFacts.
Context `{Scorers} `{Env}.

Lemma error_truthy_message msg : msg <> "" -> error_truthy (Some msg) = true.
Proof.
  intros N. unfold error_truthy, truthy.
  destruct (String.eqb_spec msg ""); [contradiction | reflexivity].
Qed.

(** A backend that raised with a message: the result is built without a
    call of the dispatcher. *)
Lemma run_test_backend_raised test_path model w data td msg :
  json_load test_path = Ok data ->
  TestDefinition_init data = Ok td ->
  chat_completions_create model (test_case td) = inl msg ->
  msg <> "" ->
  run_test test_path model w
  = (Ok {| TestResult.test_id := test_id td;
           TestResult.passed := false;
           TestResult.score := 0%Q;
           TestResult.actual_output := "";
           TestResult.expected_output := expected_answer (evaluation td);
           TestResult.error_message := Some msg;
           TestResult.execution_time_ms :=
             Qred ((time_time (S (ticks w)) - time_time (ticks w)) * 1000);
           TestResult.prompt_tokens := Some 0;
           TestResult.completion_tokens := Some 0 |},
     {| ticks := S (S (ticks w));
        trace := (trace w ++ [EvLoad test_path; EvChat model (test_case td)])%list |}).
Proof.
  intros Hload Hinit Hchat Hmsg.
  unfold run_test, _load_test, _call_llm, bind, emit, lift, time, ret. simpl.
  rewrite Hload, Hinit, Hchat. simpl.
  pose proof (error_truthy_message _ Hmsg) as Ht. simpl in Ht. rewrite Ht.
  rewrite <- app_assoc. reflexivity.
Qed.

(** A backend that answered: an exception of the dispatcher leaves
    [run_test] as it is. *)
Lemma run_test_dispatch_raised test_path model w data td response e :
  json_load test_path = Ok data ->
  TestDefinition_init data = Ok td ->
  chat_completions_create model (test_case td) = inr response ->
  evaluate_response (content response) (evaluation td) = Raise e ->
  run_test test_path model w
  = (Raise e,
     {| ticks := S (S (ticks w));
        trace := (trace w ++ [EvLoad test_path; EvChat model (test_case td);
                              EvEvaluate (content response) (evaluation td)])%list |}).
Proof.
  intros Hload Hinit Hchat Heval.
  unfold run_test, _load_test, _call_llm, bind, emit, lift, time, ret. simpl.
  rewrite Hload, Hinit, Hchat. simpl. rewrite Heval.
  rewrite <- !app_assoc. reflexivity.
Qed.

(** The loop stops at the first test that raises. *)
Lemma run_tests_app results pre post model w :
  run_tests results (pre ++ post)%list model w
  = match run_tests results pre model w with
    | (Ok results', w') => run_tests results' post model w'
    | (Raise e, w') => (Raise e, w')
    end.
Proof.
  revert results w. induction pre as [| f pre IH]; intros results w; simpl.
  - reflexivity.
  - unfold bind. destruct (run_test f model w) as [[r | e] w'].
    + apply IH.
    + reflexivity.
Qed.

Lemma run_tests_raise_at results pre test_file post model w results' w1 e w2 :
  run_tests results pre model w = (Ok results', w1) ->
  run_test test_file model w1 = (Raise e, w2) ->
  run_tests results (pre ++ test_file :: post)%list model w = (Raise e, w2).
Proof.
  intros Hpre Hf. rewrite run_tests_app, Hpre. simpl.
  unfold bind. rewrite Hf. reflexivity.
Qed.

End RunnerFacts.

(** C6, as the code has it. When the backend call raises an exception whose
    message is not empty, [run_test] returns a result with [passed] false,
    score 0, the message as [error_message] and an empty [actual_output];
    between the world before and the world after there are the load of the
    file and the backend call, and no call of the dispatcher. *)
Theorem backend_error_short_circuits `{Scorers} `{Env}
  (test_path model : string) (w : World) (data : json) (td : TestDefinition)
  (msg : string) :
  json_load test_path = Ok data ->
  TestDefinition_init data = Ok td ->
  chat_completions_create model (test_case td) = inl msg ->
  msg <> "" ->
  exists result w',
    run_test test_path model w = (Ok result, w')
    /\ TestResult.passed result = false
    /\ TestResult.score result = 0%Q
    /\ TestResult.error_message result = Some msg
    /\ TestResult.actual_output result = ""
    /\ trace w' = (trace w ++ [EvLoad test_path; EvChat model (test_case td)])%list
    /\ forall response ev,
         ~ In (EvEvaluate response ev)
             [EvLoad test_path; EvChat model (test_case td)].
Proof.
  intros Hload Hinit Hchat Hmsg.
  do 2 eexists. split.
  - apply (run_test_backend_raised _ _ _ _ _ _ Hload Hinit Hchat Hmsg).
  - simpl. repeat split; try reflexivity.
    intros response ev [E | [E | []]]; discriminate.
Qed.

Lemma backend_error_short_circuits_witness :
  exists result w',
    @run_test Demo.scorers Demo.env "tests/d.json" "gpt-4" init_world
    = (Ok result, w')
    /\ TestResult.passed result = false
    /\ TestResult.score result = 0%Q
    /\ TestResult.error_message result = Some "Connection error."
    /\ TestResult.actual_output result = "".
Proof.
  destruct (@backend_error_short_circuits Demo.scorers Demo.env
              "tests/d.json" "gpt-4" init_world
              (Demo.definition_of "d" "down?" Demo.capital)
              (Demo.definition_of "d" "down?" Demo.capital)
              "Connection error.")
    as (result & w' & Hrun & Hp & Hs & He & Ha & _);
    [reflexivity | reflexivity | reflexivity | discriminate |].
  exists result, w'. repeat split; assumption.
Defined.

(** C6 fails as stated: when the backend raises an exception whose message
    is empty, the test on [llm_result["error"]] takes it for a success; the
    dispatcher is called on the empty output and its verdict, here
    [passed], is the verdict of the trial. *)
Lemma backend_error_without_message_is_scored :
  @run_test Demo.scorers Demo.env "tests/c.json" "gpt-4" init_world
  = (Ok {| TestResult.test_id := "c";
           TestResult.passed := true;
           TestResult.score := 0%Q;
           TestResult.actual_output := "";
           TestResult.expected_output := PStr "";
           TestResult.error_message := Some "";
           TestResult.execution_time_ms := 1000%Q;
           TestResult.prompt_tokens := Some 0;
           TestResult.completion_tokens := Some 0 |},
     {| ticks := 2;
        trace := [EvLoad "tests/c.json";
                  EvChat "gpt-4" (Demo.case_of "blank?");
                  EvEvaluate "" Demo.blank] |}).
Proof. vm_compute. reflexivity. Qed.

(** C1, as the code has it. Nothing catches an exception of the
    dispatcher: it leaves [run_test], and the loop of [run_all] and of
    [run_category] with it. The batch raises that exception and returns no
    result; the last thing it did is the dispatch of the offending trial,
    and the files after it are neither loaded nor run. *)
Theorem dispatch_error_aborts_batch `{Scorers} `{Env}
  (dir model : string) (pre : list string) (test_file : string)
  (post : list string) (w w1 : World) (results : list TestResult.t)
  (data : json) (td : TestDefinition) (response : ChatCompletion) (e : exn) :
  run_tests [] pre model w = (Ok results, w1) ->
  json_load test_file = Ok data ->
  TestDefinition_init data = Ok td ->
  chat_completions_create model (test_case td) = inr response ->
  evaluate_response (content response) (evaluation td) = Raise e ->
  let w2 :=
    {| ticks := S (S (ticks w1));
       trace := (trace w1 ++ [EvLoad test_file; EvChat model (test_case td);
                              EvEvaluate (content response) (evaluation td)])%list |} in
  (sorted_rglob dir "*.json" = (pre ++ test_file :: post)%list ->
   run_all dir model w = (Raise e, w2))
  /\ (sorted_glob dir "*.json" = (pre ++ test_file :: post)%list ->
      run_category dir model w = (Raise e, w2)).
Proof.
  intros Hpre Hload Hinit Hchat Heval w2.
  pose proof (run_test_dispatch_raised test_file model w1 _ _ _ _
                Hload Hinit Hchat Heval) as Hf.
  split; intros Hfiles; unfold run_all, run_category; rewrite Hfiles;
    apply (run_tests_raise_at _ _ _ _ _ _ _ _ _ _ Hpre Hf).
Qed.

Lemma dispatch_error_aborts_batch_witness :
  @run_all Demo.scorers Demo.env "tests" "gpt-4" init_world
  = (Raise (ValueError "Unknown evaluation type: sentiment"),
     {| ticks := 2;
        trace := [EvLoad "tests/a.json";
                  EvChat "gpt-4" (Demo.case_of "mood?");
                  EvEvaluate "positive" Demo.sentiment] |}).
Proof.
  apply (@dispatch_error_aborts_batch Demo.scorers Demo.env "tests" "gpt-4"
           [] "tests/a.json" ["tests/b.json"] init_world init_world []
           (Demo.definition_of "a" "mood?" Demo.sentiment)
           (Demo.definition_of "a" "mood?" Demo.sentiment)
           {| content := "positive"; usage_prompt_tokens := 9;
              usage_completion_tokens := 1 |});
    reflexivity.
Defined.

(** C1 fails as stated: of the two files of the batch, the first has an
    unknown evaluation type and the second is a well-formed [exact_match]
    test that the backend answers. [run_all] raises; no result records the
    error and the second file is never loaded. *)
Lemma malformed_test_crashes_run_all :
  @sorted_rglob Demo.env "tests" "*.json" = ["tests/a.json"; "tests/b.json"]
  /\ outcome_value
       (fst (@run_test Demo.scorers Demo.env "tests/b.json" "gpt-4" init_world))
     <> None
  /\ @run_all Demo.scorers Demo.env "tests" "gpt-4" init_world
     = (Raise (ValueError "Unknown evaluation type: sentiment"),
        {| ticks := 2;
           trace := [EvLoad "tests/a.json";
                     EvChat "gpt-4" (Demo.case_of "mood?");
                     EvEvaluate "positive" Demo.sentiment] |}).
Proof.
  split; [reflexivity |]. split; [vm_compute; discriminate |].
  vm_compute. reflexivity.
Qed.

(* ===================================================================== *)
(** ** The reporter on the results of the runner *)
(* ===================================================================== *)

Section RunnerResultsFacts.

Lemma sum_passed_model_dump acc (results : list TestResult.t) :
  returns (sum_passed acc (map (fun r => ODict (model_dump r)) results)).
Proof.
  revert acc. induction results as [| r results IH]; intros acc; simpl.
  - now exists acc.
  - apply IH.
Qed.

Lemma sum_scores_model_dump q (results : list TestResult.t) :
  exists q',
    sum_scores (NFloat q) (map (fun r => ODict (model_dump r)) results)
    = Ok (NFloat q').
Proof.
  revert q. induction results as [| r results IH]; intros q; simpl.
  - now exists q.
  - apply IH.
Qed.

Lemma sum_times_model_dump q (results : list TestResult.t) :
  exists q',
    sum_times (NFloat q) (map (fun r => ODict (model_dump r)) results)
    = Ok (NFloat q').
Proof.
  revert q. induction results as [| r results IH]; intros q; simpl.
  - now exists q.
  - apply IH.
Qed.

(** The first float of a sum is added to the [int] 0. *)
Lemma py_add_0_float q :
  py_add (NInt 0) (PFloat q) = Ok (NFloat (Qred (0 + q))).
Proof. reflexivity. Qed.

Lemma mean_score_model_dump (r : TestResult.t) (results : list TestResult.t) :
  returns (mean_score (map (fun r => ODict (model_dump r)) (r :: results))).
Proof.
  unfold mean_score.
  replace (0 <? Z.of_nat (length (map (fun r => ODict (model_dump r))
                                    (r :: results))))
    with true by (symmetry; apply Z.ltb_lt; simpl; lia).
  cbn [map sum_scores].
  change (getitem (ODict (model_dump r)) "score")
    with (Ok (A := pyval) (PFloat (TestResult.score r))).
  cbn [obind]. rewrite py_add_0_float. cbn [obind].
  destruct (sum_scores_model_dump (Qred (0 + TestResult.score r)) results)
    as [q Hq].
  rewrite Hq. now eexists.
Qed.

Lemma report_locals_model (r : TestResult.t) (results : list TestResult.t) :
  report_locals (map OTestResult (r :: results))
  = Raise (TypeError "'TestResult' object is not subscriptable").
Proof. reflexivity. Qed.

Lemma report_locals_model_dump (r : TestResult.t) (results : list TestResult.t) :
  report_locals (map (fun r => ODict (model_dump r)) (r :: results))
  = Raise (KeyError "category").
Proof.
  unfold report_locals.
  destruct (sum_passed_model_dump 0 (r :: results)) as [p Hp]. rewrite Hp.
  destruct (mean_score_model_dump r results) as [m Hm]. rewrite Hm.
  cbn [obind map sum_times].
  change (getitem (ODict (model_dump r)) "execution_time_ms")
    with (Ok (A := pyval) (PFloat (TestResult.execution_time_ms r))).
  cbn [obind]. rewrite py_add_0_float. cbn [obind].
  destruct (sum_times_model_dump
              (Qred (0 + TestResult.execution_time_ms r)) results) as [t Ht].
  rewrite Ht. reflexivity.
Qed.

End RunnerResultsFacts.

(** C5. On every non-empty list of [TestResult] values, [generate_report]
    raises and nothing is written: the reporter subscripts each result,
    which a [TestResult] does not support. Read through their fields as
    dictionaries, the same results still stop the reporter, with a
    [KeyError] on ['category'], which is not a field of [TestResult]. *)
Theorem generate_report_raises_on_runner_results `{Env}
  (results : list TestResult.t) (output_path : string) (w : World) :
  results <> [] ->
  generate_report results output_path w
  = (Raise (TypeError "'TestResult' object is not subscriptable"), w)
  /\ generate_html_report (map OTestResult results) output_path w
     = (Raise (TypeError "'TestResult' object is not subscriptable"), w)
  /\ report_locals (map (fun r => ODict (model_dump r)) results)
     = Raise (KeyError "category").
Proof.
  intros Hne. destruct results as [| r results]; [congruence |].
  split; [| split].
  - unfold generate_report, generate_html_report, bind, lift.
    rewrite report_locals_model. reflexivity.
  - unfold generate_html_report, bind, lift.
    rewrite report_locals_model. reflexivity.
  - apply report_locals_model_dump.
Qed.

Lemma generate_report_raises_on_runner_results_witness :
  let result :=
    {| TestResult.test_id := "b"; TestResult.passed := true;
       TestResult.score := 1%Q; TestResult.actual_output := " paris ";
       TestResult.expected_output := PStr "Paris";
       TestResult.error_message := None;
       TestResult.execution_time_ms := 1000%Q;
       TestResult.prompt_tokens := Some 9;
       TestResult.completion_tokens := Some 1 |} in
  @generate_report Demo.env [result] "report.html" init_world
  = (Raise (TypeError "'TestResult' object is not subscriptable"), init_world).
Proof.
  intros result.
  apply (@generate_report_raises_on_runner_results Demo.env [result]
           "report.html" init_world).
  discriminate.
Defined.

(* ===================================================================== *)
(** ** The aggregation of the reporter *)
(* ===================================================================== *)

Section KeyFacts.

Lemma Qeq_bool_sym x y : Qeq_bool x y = Qeq_bool y x.
Proof.
  destruct (Qeq_bool x y) eqn:E1, (Qeq_bool y x) eqn:E2; try reflexivity.
  - apply Qeq_bool_iff in E1. symmetry in E1. apply Qeq_bool_iff in E1.
    congruence.
  - apply Qeq_bool_iff in E2. symmetry in E2. apply Qeq_bool_iff in E2.
    congruence.
Qed.

Lemma py_eqb_sym a b : py_eqb a b = py_eqb b a.
Proof.
  destruct a, b; simpl; try reflexivity;
    try apply Qeq_bool_sym; apply String.eqb_sym.
Qed.

Lemma py_eqb_trans a b c :
  py_eqb a b = true -> py_eqb b c = true -> py_eqb a c = true.
Proof.
  intros Hab Hbc.
  destruct a, b; simpl in Hab; try discriminate;
    destruct c; simpl in Hbc |- *; try discriminate; try reflexivity;
    try (apply String.eqb_eq in Hab, Hbc; subst; apply String.eqb_refl);
    apply Qeq_bool_iff in Hab, Hbc; apply Qeq_bool_iff;
    etransitivity; eassumption.
Qed.

(** Two equal keys answer every comparison alike. *)
Lemma py_eqb_congr a b k : py_eqb a b = true -> py_eqb a k = py_eqb b k.
Proof.
  intros Hab.
  destruct (py_eqb a k) eqn:Ea, (py_eqb b k) eqn:Eb; try reflexivity.
  - rewrite py_eqb_sym in Hab.
    rewrite (py_eqb_trans _ _ _ Hab Ea) in Eb. discriminate.
  - rewrite (py_eqb_trans _ _ _ Hab Eb) in Ea. discriminate.
Qed.

Lemma dict_get_dict_append k c r (d : list (pyval * list pyobj)) :
  dict_get k (dict_append c r d)
  = if py_eqb c k then Some (default [] (dict_get k d) ++ [r])%list
    else dict_get k d.
Proof.
  induction d as [| [k' rs] d IH]; simpl.
  - reflexivity.
  - destruct (py_eqb k' c) eqn:Ec; simpl.
    + rewrite <- (py_eqb_congr _ _ k Ec).
      destruct (py_eqb k' k); reflexivity.
    + destruct (py_eqb k' k) eqn:Ek.
      * destruct (py_eqb c k) eqn:Eck; [| reflexivity].
        rewrite py_eqb_sym in Eck.
        rewrite (py_eqb_trans _ _ _ Ek Eck) in Ec. discriminate.
      * apply IH.
Qed.

Lemma dict_get_map {V W} (f : V -> W) k (d : list (pyval * V)) :
  dict_get k (map (fun '(k', v) => (k', f v)) d) = f <$> dict_get k d.
Proof.
  induction d as [| [k' v] d IH]; simpl; [reflexivity |].
  destruct (py_eqb k' k); [reflexivity | apply IH].
Qed.

End KeyFacts.

Section OutcomeFacts.

Lemma obind_Ok {A B} (m : outcome A) (k : A -> outcome B) b :
  obind m k = Ok b -> exists a, m = Ok a /\ k a = Ok b.
Proof. destruct m as [a | e]; simpl; [eauto | discriminate]. Qed.

Lemma obind_Raise {A B} (m : outcome A) (k : A -> outcome B) e :
  obind m k = Raise e ->
  m = Raise e \/ exists a, m = Ok a /\ k a = Raise e.
Proof. destruct m as [a | e']; simpl; [eauto | intros [= ->]; now left]. Qed.

End OutcomeFacts.

Section ReadingFacts.

Lemma getitem_field r key v : getitem r key = Ok v -> field r key = v.
Proof. intros E. unfold field. now rewrite E. Qed.

Lemma well_formed_inv r :
  well_formed r = true ->
  exists p s t c,
    getitem r "passed" = Ok p /\ getitem r "score" = Ok s
    /\ getitem r "execution_time_ms" = Ok t /\ getitem r "category" = Ok c
    /\ (s = PNone \/ is_number s = true)
    /\ is_number t = true /\ hashable c = true.
Proof.
  unfold well_formed. intros Hwf.
  destruct (getitem r "passed") as [p |]; [| discriminate].
  destruct (getitem r "score") as [s |]; [| discriminate].
  destruct (getitem r "execution_time_ms") as [t |]; [| discriminate].
  destruct (getitem r "category") as [c |]; [| discriminate].
  apply andb_prop in Hwf. destruct Hwf as [Hwf Hc].
  apply andb_prop in Hwf. destruct Hwf as [Hs Ht].
  exists p, s, t, c. repeat split; try assumption.
  apply orb_prop in Hs. destruct Hs as [Hs | Hs]; [left | now right].
  now destruct s.
Qed.

Lemma well_formed_intro r p s t c :
  getitem r "passed" = Ok p -> getitem r "score" = Ok s ->
  getitem r "execution_time_ms" = Ok t -> getitem r "category" = Ok c ->
  s = PNone \/ is_number s = true ->
  is_number t = true -> hashable c = true ->
  well_formed r = true.
Proof.
  intros Hp Hs Ht Hc Hsn Htn Hch. unfold well_formed.
  rewrite Hp, Hs, Ht, Hc, Htn, Hch.
  destruct Hsn as [-> | ->]; [reflexivity | now rewrite orb_true_r].
Qed.

(** A result with a key missing, or one that is no dictionary, is not well
    formed, and the lookup raises a [KeyError] or a [TypeError]. *)
Lemma getitem_Raise r key e :
  In key report_keys -> getitem r key = Raise e ->
  reader_error e /\ well_formed r = false.
Proof.
  intros Hk Hr. split.
  - unfold getitem in Hr. destruct r as [d | t].
    + destruct (d !! key); [discriminate |]. injection Hr as <-. left. eauto.
    + injection Hr as <-. right. eauto.
  - unfold well_formed.
    destruct Hk as [<- | [<- | [<- | [<- | []]]]]; rewrite Hr;
      repeat match goal with
             | |- context [getitem r ?k] => destruct (getitem r k)
             end; reflexivity.
Qed.

Lemma score_unreadable r s :
  getitem r "score" = Ok s -> is_none s = false -> is_number s = false ->
  well_formed r = false.
Proof.
  intros Hs Hnone Hnum. unfold well_formed. rewrite Hs, Hnone, Hnum.
  repeat match goal with
         | |- context [getitem r ?k] => destruct (getitem r k)
         end; reflexivity.
Qed.

Lemma time_unreadable r t :
  getitem r "execution_time_ms" = Ok t -> is_number t = false ->
  well_formed r = false.
Proof.
  intros Ht Hnum. unfold well_formed. rewrite Ht, Hnum.
  repeat match goal with
         | |- context [getitem r ?k] => destruct (getitem r k)
         end; try reflexivity.
  now rewrite andb_false_r.
Qed.

Lemma category_unreadable r c :
  getitem r "category" = Ok c -> hashable c = false -> well_formed r = false.
Proof.
  intros Hc Hh. unfold well_formed. rewrite Hc, Hh.
  repeat match goal with
         | |- context [getitem r ?k] => destruct (getitem r k)
         end; try reflexivity.
  now rewrite andb_false_r.
Qed.

Lemma unreadable_not_well_formed results :
  Forall (fun r => well_formed r = true) results ->
  Exists (fun r => well_formed r = false) results -> False.
Proof.
  intros Hwf Hex. apply List.Exists_exists in Hex.
  destruct Hex as (r & Hin & Hr).
  rewrite (proj1 (List.Forall_forall _ _) Hwf r Hin) in Hr. discriminate.
Qed.

Lemma number_add_Q a n :
  (number_Q (number_add a n) == number_Q a + number_Q n)%Q.
Proof.
  destruct a, n; simpl; try apply Qred_correct.
  rewrite inject_Z_plus. reflexivity.
Qed.

Lemma float_limit_pos : 0 < float_limit.
Proof. reflexivity. Qed.

Lemma number_weight_nonneg n : 0 <= number_weight n.
Proof. destruct n; simpl; lia. Qed.

Lemma int_weight_nonneg v : 0 <= int_weight v.
Proof.
  unfold int_weight. destruct (as_number v) as [n |]; simpl;
    [apply number_weight_nonneg | lia].
Qed.

Lemma int_weight_number v n :
  as_number v = Some n -> int_weight v = number_weight n.
Proof. intros E. unfold int_weight. now rewrite E. Qed.

Lemma number_add_weight a n :
  number_weight (number_add a n) <= number_weight a + number_weight n.
Proof. destruct a, n; simpl; lia. Qed.

Lemma sum_Z_nonneg l : (forall x, In x l -> 0 <= x) -> 0 <= sum_Z l.
Proof.
  induction l as [| x l IH]; intros Hl; simpl; [lia |].
  pose proof (Hl x (or_introl eq_refl)).
  assert (0 <= sum_Z l) by (apply IH; intros y Hy; apply Hl; now right).
  lia.
Qed.

Lemma sum_Z_In l x : (forall y, In y l -> 0 <= y) -> In x l -> x <= sum_Z l.
Proof.
  induction l as [| y l IH]; intros Hl Hin; [destruct Hin |].
  pose proof (Hl y (or_introl eq_refl)).
  assert (Hrest : 0 <= sum_Z l)
    by (apply sum_Z_nonneg; intros z Hz; apply Hl; now right).
  simpl. destruct Hin as [-> | Hin]; [lia |].
  assert (x <= sum_Z l) by (apply IH; [intros z Hz; apply Hl; now right | exact Hin]).
  lia.
Qed.

Lemma weight_nonneg key results :
  0 <= sum_Z (map (fun r => int_weight (field r key)) results).
Proof.
  apply sum_Z_nonneg. intros x Hx. apply in_map_iff in Hx.
  destruct Hx as (r & <- & _). apply int_weight_nonneg.
Qed.

Lemma int_to_float_Ok z :
  Z.abs z < float_limit -> int_to_float z = Ok (inject_Z z).
Proof.
  intros Hz. unfold int_to_float.
  now replace (Z.abs z <? float_limit) with true by (symmetry; now apply Z.ltb_lt).
Qed.

Lemma int_to_float_Raise z e :
  int_to_float z = Raise e -> overflow_error e /\ float_limit <= Z.abs z.
Proof.
  unfold int_to_float. destruct (Z.abs z <? float_limit) eqn:E; [discriminate |].
  intros [= <-]. split; [eexists; reflexivity | now apply Z.ltb_ge].
Qed.

(** When [acc + v] returns, [v] is a number and the sum is [number_add]. *)
Lemma py_add_Ok acc v n :
  py_add acc v = Ok n ->
  exists m, as_number v = Some m /\ n = number_add acc m.
Proof.
  unfold py_add. destruct (as_number v) as [m |]; [| discriminate].
  intros Hadd. exists m. split; [reflexivity |].
  destruct acc as [x | q], m as [y | q']; try congruence.
  - apply obind_Ok in Hadd. destruct Hadd as (_ & _ & Hadd). congruence.
  - apply obind_Ok in Hadd. destruct Hadd as (_ & _ & Hadd). congruence.
Qed.

(** When [acc + v] raises, [v] is no number, or an [int] is too large for
    the float it is added to. *)
Lemma py_add_Raise acc v e :
  py_add acc v = Raise e ->
  (is_number v = false /\ exists msg, e = TypeError msg)
  \/ (overflow_error e /\ float_limit <= number_weight acc + int_weight v).
Proof.
  unfold py_add, is_number, int_weight.
  destruct (as_number v) as [m |]; simpl.
  - intros Hadd. right.
    destruct acc as [x | q], m as [y | q']; try discriminate.
    + apply obind_Raise in Hadd.
      destruct Hadd as [Hadd | (_ & _ & Hadd)]; [| discriminate].
      apply int_to_float_Raise in Hadd. simpl. split; [tauto | lia].
    + apply obind_Raise in Hadd.
      destruct Hadd as [Hadd | (_ & _ & Hadd)]; [| discriminate].
      apply int_to_float_Raise in Hadd. simpl. split; [tauto | lia].
  - intros [= <-]. left. eauto.
Qed.

Lemma py_truediv_Ok a n m : py_truediv a n = Ok m -> m = number_div a n.
Proof.
  unfold py_truediv. destruct a as [z | q]; [| congruence].
  destruct (Z.abs z <? float_limit * n); congruence.
Qed.

Lemma py_truediv_Raise a n e :
  0 < n -> py_truediv a n = Raise e ->
  overflow_error e /\ float_limit <= number_weight a.
Proof.
  intros Hn. unfold py_truediv. destruct a as [z | q]; [| discriminate].
  destruct (Z.abs z <? float_limit * n) eqn:E; [discriminate |].
  intros [= <-]. split; [eexists; reflexivity |].
  apply Z.ltb_ge in E. pose proof float_limit_pos. simpl. nia.
Qed.

(** What the sum of the passed trials returns, and on which results. *)
Lemma sum_passed_Ok acc results n :
  sum_passed acc results = Ok n ->
  Forall (fun r => exists p, getitem r "passed" = Ok p) results
  /\ n = acc + count_passed results.
Proof.
  revert acc. induction results as [| r results IH]; intros acc Hsum.
  - injection Hsum as <-. split; [constructor |].
    unfold count_passed. simpl. lia.
  - simpl in Hsum. apply obind_Ok in Hsum. destruct Hsum as (p & Hp & Hrest).
    apply IH in Hrest. destruct Hrest as [Hall ->].
    split; [constructor; eauto |].
    unfold count_passed, passed_of. cbn [List.filter].
    rewrite (getitem_field _ _ _ Hp).
    destruct (truthy p); cbn [length]; lia.
Qed.

Lemma sum_passed_Raise acc results e :
  sum_passed acc results = Raise e ->
  reader_error e /\ Exists (fun r => well_formed r = false) results.
Proof.
  revert acc. induction results as [| r results IH]; intros acc; simpl;
    [discriminate |].
  intros Hr. apply obind_Raise in Hr. destruct Hr as [Hr | (p & _ & Hr)].
  - apply getitem_Raise in Hr; [| simpl; auto].
    split; [tauto | constructor; tauto].
  - apply IH in Hr. split; [tauto | apply Exists_cons_tl; tauto].
Qed.

(** One step of the sum of the scores. *)
Lemma sum_scores_cons acc r results s :
  getitem r "score" = Ok s ->
  sum_scores acc (r :: results)
  = if is_none s then sum_scores acc results
    else obind (py_add acc s) (fun acc' => sum_scores acc' results).
Proof. intros Hs. simpl. rewrite Hs. simpl. now destruct s. Qed.

Lemma score_weight_cons r results s :
  getitem r "score" = Ok s ->
  score_weight (r :: results) = int_weight s + score_weight results.
Proof.
  intros Hs. unfold score_weight. simpl. now rewrite (getitem_field _ _ _ Hs).
Qed.

Lemma time_weight_cons r results t :
  getitem r "execution_time_ms" = Ok t ->
  time_weight (r :: results) = int_weight t + time_weight results.
Proof.
  intros Ht. unfold time_weight. simpl. now rewrite (getitem_field _ _ _ Ht).
Qed.

Lemma defined_scores_cons r results s :
  getitem r "score" = Ok s ->
  defined_scores (r :: results)
  = match as_number s with
    | Some n => number_Q n :: defined_scores results
    | None => defined_scores results
    end.
Proof.
  intros Hs. unfold defined_scores, score_of. simpl.
  rewrite (getitem_field _ _ _ Hs). now destruct (as_number s).
Qed.

(** What the sum of the scores returns, and on which results. *)
Lemma sum_scores_Ok acc results n :
  sum_scores acc results = Ok n ->
  Forall (fun r => exists s, getitem r "score" = Ok s
                             /\ (s = PNone \/ is_number s = true)) results
  /\ (number_Q n == number_Q acc + sum_Q (defined_scores results))%Q
  /\ number_weight n <= number_weight acc + score_weight results.
Proof.
  revert acc. induction results as [| r results IH]; intros acc Hsum.
  - injection Hsum as <-. split; [constructor |].
    split; [simpl; ring | unfold score_weight; simpl; lia].
  - assert (Hget : exists s, getitem r "score" = Ok s).
    { simpl in Hsum. apply obind_Ok in Hsum. destruct Hsum as (s & Hs & _).
      eauto. }
    destruct Hget as [s Hs]. rewrite (sum_scores_cons _ _ _ _ Hs) in Hsum.
    rewrite (score_weight_cons _ _ _ Hs), (defined_scores_cons _ _ _ Hs).
    destruct (is_none s) eqn:Hnone.
    + destruct s; try discriminate.
      apply IH in Hsum. destruct Hsum as (Hall & Hq & Hw).
      split; [constructor; eauto |]. split; [exact Hq |].
      change (int_weight PNone) with 0. lia.
    + apply obind_Ok in Hsum. destruct Hsum as (acc' & Hadd & Hrest).
      apply py_add_Ok in Hadd. destruct Hadd as (m & Hm & ->).
      apply IH in Hrest. destruct Hrest as (Hall & Hq & Hw).
      split.
      { constructor; [| exact Hall]. exists s. split; [exact Hs |]. right.
        unfold is_number. now rewrite Hm. }
      rewrite (int_weight_number _ _ Hm), Hm. split.
      * rewrite Hq, number_add_Q. simpl sum_Q. symmetry. apply Qplus_assoc.
      * pose proof (number_add_weight acc m). lia.
Qed.

Lemma sum_scores_Raise acc results e :
  sum_scores acc results = Raise e ->
  (reader_error e /\ Exists (fun r => well_formed r = false) results)
  \/ (overflow_error e
      /\ float_limit <= number_weight acc + score_weight results).
Proof.
  revert acc. induction results as [| r results IH]; intros acc Hsum;
    [discriminate |].
  destruct (getitem r "score") as [s | e'] eqn:Hs.
  - rewrite (sum_scores_cons _ _ _ _ Hs) in Hsum.
    pose proof (score_weight_cons _ results _ Hs) as Hweight.
    pose proof (int_weight_nonneg s) as Hs0.
    destruct (is_none s) eqn:Hnone.
    + apply IH in Hsum. destruct Hsum as [[He Hex] | [He Hw]].
      * left. split; [exact He | now apply Exists_cons_tl].
      * right. split; [exact He | lia].
    + apply obind_Raise in Hsum.
      destruct Hsum as [Hadd | (acc' & Hadd & Hrest)].
      * apply py_add_Raise in Hadd.
        destruct Hadd as [[Hnum [msg ->]] | [He Hw]].
        -- left. split; [right; eauto |]. constructor.
           eapply score_unreadable; eassumption.
        -- right. split; [exact He |].
           pose proof (weight_nonneg "score" results) as Hrest.
           fold (score_weight results) in Hrest. lia.
      * apply py_add_Ok in Hadd. destruct Hadd as (m & Hm & ->).
        apply IH in Hrest. destruct Hrest as [[He Hex] | [He Hw]].
        -- left. split; [exact He | now apply Exists_cons_tl].
        -- right. split; [exact He |].
           pose proof (number_add_weight acc m).
           rewrite (int_weight_number _ _ Hm) in Hweight. lia.
  - simpl in Hsum. rewrite Hs in Hsum. injection Hsum as <-.
    apply getitem_Raise in Hs; [| simpl; auto].
    left. split; [tauto | constructor; tauto].
Qed.

(** What the sum of the times returns, and on which results. *)
Lemma sum_times_Ok acc results n :
  sum_times acc results = Ok n ->
  Forall (fun r => exists t, getitem r "execution_time_ms" = Ok t
                             /\ is_number t = true) results
  /\ (number_Q n == number_Q acc + sum_Q (map time_of results))%Q
  /\ number_weight n <= number_weight acc + time_weight results.
Proof.
  revert acc. induction results as [| r results IH]; intros acc Hsum.
  - injection Hsum as <-. split; [constructor |].
    split; [simpl; ring | unfold time_weight; simpl; lia].
  - simpl in Hsum. apply obind_Ok in Hsum. destruct Hsum as (t & Ht & Hrest).
    apply obind_Ok in Hrest. destruct Hrest as (acc' & Hadd & Hrest).
    apply py_add_Ok in Hadd. destruct Hadd as (m & Hm & ->).
    apply IH in Hrest. destruct Hrest as (Hall & Hq & Hw).
    split.
    { constructor; [| exact Hall]. exists t. split; [exact Ht |].
      unfold is_number. now rewrite Hm. }
    rewrite (time_weight_cons _ _ _ Ht), (int_weight_number _ _ Hm). split.
    + rewrite Hq, number_add_Q. cbn [map]. simpl sum_Q. unfold time_of at 2.
      rewrite (getitem_field _ _ _ Ht), Hm. simpl. symmetry. apply Qplus_assoc.
    + pose proof (number_add_weight acc m). lia.
Qed.

Lemma sum_times_Raise acc results e :
  sum_times acc results = Raise e ->
  (reader_error e /\ Exists (fun r => well_formed r = false) results)
  \/ (overflow_error e
      /\ float_limit <= number_weight acc + time_weight results).
Proof.
  revert acc. induction results as [| r results IH]; intros acc Hsum;
    [discriminate |].
  simpl in Hsum. apply obind_Raise in Hsum.
  destruct Hsum as [Hget | (t & Ht & Hsum)].
  - apply getitem_Raise in Hget; [| simpl; auto].
    left. split; [tauto | constructor; tauto].
  - pose proof (time_weight_cons _ results _ Ht) as Hweight.
    pose proof (int_weight_nonneg t) as Ht0.
    apply obind_Raise in Hsum.
    destruct Hsum as [Hadd | (acc' & Hadd & Hrest)].
    + apply py_add_Raise in Hadd.
      destruct Hadd as [[Hnum [msg ->]] | [He Hw]].
      * left. split; [right; eauto |]. constructor.
        eapply time_unreadable; eassumption.
      * right. split; [exact He |].
        pose proof (weight_nonneg "execution_time_ms" results) as Hrest.
        fold (time_weight results) in Hrest. lia.
    + apply py_add_Ok in Hadd. destruct Hadd as (m & Hm & ->).
      apply IH in Hrest. destruct Hrest as [[He Hex] | [He Hw]].
      * left. split; [exact He | now apply Exists_cons_tl].
      * right. split; [exact He |].
        pose proof (number_add_weight acc m).
        rewrite (int_weight_number _ _ Hm) in Hweight. lia.
Qed.

End ReadingFacts.

Section GroupingFacts.

Lemma sum_Z_app l l' : sum_Z (l ++ l')%list = sum_Z l + sum_Z l'.
Proof. induction l as [| x l IH]; simpl; [reflexivity | rewrite IH; lia]. Qed.

(** Filing one result adds its measure to the total of the groups. *)
Lemma dict_append_measure (m : pyobj -> Z) c r d :
  sum_Z (map (fun kg => sum_Z (map m (snd kg))) (dict_append c r d))
  = sum_Z (map (fun kg => sum_Z (map m (snd kg))) d) + m r.
Proof.
  induction d as [| [k g] d IH]; simpl.
  - lia.
  - destruct (py_eqb k c); simpl.
    + rewrite map_app, sum_Z_app. simpl. lia.
    + rewrite IH. lia.
Qed.

Lemma groups_of_measure (m : pyobj -> Z) d results :
  sum_Z (map (fun kg => sum_Z (map m (snd kg))) (groups_of d results))
  = sum_Z (map (fun kg => sum_Z (map m (snd kg))) d) + sum_Z (map m results).
Proof.
  revert d. induction results as [| r results IH]; intros d; simpl.
  - lia.
  - change (fold_left _ results (dict_append (category_of r) r d))
      with (groups_of (dict_append (category_of r) r d) results).
    rewrite IH, dict_append_measure. lia.
Qed.

(** A group weighs no more than the whole list. *)
Lemma groups_of_weight (m : pyobj -> Z) results k g :
  (forall r, 0 <= m r) ->
  In (k, g) (groups_of [] results) ->
  sum_Z (map m g) <= sum_Z (map m results).
Proof.
  intros Hm Hin.
  pose proof (groups_of_measure m [] results) as Htotal.
  change (sum_Z (map (fun kg => sum_Z (map m (snd kg))) [])) with 0 in Htotal.
  rewrite Z.add_0_l in Htotal. rewrite <- Htotal.
  apply sum_Z_In.
  - intros y Hy. apply in_map_iff in Hy. destruct Hy as ([k' g'] & <- & _).
    apply sum_Z_nonneg. intros x Hx. apply in_map_iff in Hx.
    destruct Hx as (r & <- & _). apply Hm.
  - apply in_map_iff. exists (k, g). split; [reflexivity | exact Hin].
Qed.

(** A property of groups that filing a result keeps. *)
Lemma dict_append_groups (Q : list pyobj -> Prop) c r d :
  Q [r] -> (forall g, Q g -> Q (g ++ [r])%list) ->
  Forall (fun kg => Q (snd kg)) d ->
  Forall (fun kg => Q (snd kg)) (dict_append c r d).
Proof.
  intros Hone Hmore Hd. induction Hd as [| [k g] d Hg Hd IH]; simpl.
  - repeat constructor. exact Hone.
  - destruct (py_eqb k c); constructor; simpl; auto.
Qed.

Lemma groups_of_groups (Q : list pyobj -> Prop) d results :
  (forall r, In r results -> Q [r] /\ forall g, Q g -> Q (g ++ [r])%list) ->
  Forall (fun kg => Q (snd kg)) d ->
  Forall (fun kg => Q (snd kg)) (groups_of d results).
Proof.
  revert d. induction results as [| r results IH]; intros d Hr Hd; [exact Hd |].
  simpl. apply IH.
  - intros r' Hin. apply Hr. now right.
  - destruct (Hr r (or_introl eq_refl)) as [Hone Hmore].
    now apply dict_append_groups.
Qed.

(** Every group is not empty and holds results of the list only. *)
Lemma groups_of_members (P : pyobj -> Prop) results :
  (forall r, In r results -> P r) ->
  Forall (fun kg => snd kg <> [] /\ Forall P (snd kg)) (groups_of [] results).
Proof.
  intros HP.
  apply (groups_of_groups (fun g => g <> [] /\ Forall P g)); [| constructor].
  intros r Hin. split.
  - split; [discriminate | repeat constructor; auto].
  - intros g [_ Hg]. split.
    + destruct g; discriminate.
    + apply Forall_app. split; [exact Hg | repeat constructor; auto].
Qed.

(** A result of a group that is not well formed is one of the list. *)
Lemma groups_of_unreadable results k g :
  In (k, g) (groups_of [] results) ->
  Exists (fun r => well_formed r = false) g ->
  Exists (fun r => well_formed r = false) results.
Proof.
  intros Hin Hex.
  pose proof (groups_of_members (fun r => In r results) results
                (fun r Hr => Hr)) as Hmem.
  pose proof (proj1 (List.Forall_forall _ _) Hmem _ Hin) as [_ Hg].
  simpl in Hg. apply List.Exists_exists in Hex. destruct Hex as (r & Hr & Hwf).
  apply List.Exists_exists. exists r. split; [| exact Hwf].
  exact (proj1 (List.Forall_forall _ _) Hg r Hr).
Qed.

End GroupingFacts.

Section LocalsFacts.

Lemma mean_score_Ok results m :
  mean_score results = Ok m ->
  Forall (fun r => exists s, getitem r "score" = Ok s
                             /\ (s = PNone \/ is_number s = true)) results
  /\ m = mean_value results.
Proof.
  unfold mean_score, mean_value. intros Hm.
  destruct results as [| r results].
  { injection Hm as <-. split; [constructor | reflexivity]. }
  replace (0 <? Z.of_nat (length (r :: results))) with true in Hm
    by (symmetry; apply Z.ltb_lt; simpl; lia).
  apply obind_Ok in Hm. destruct Hm as (s & Hs & Hdiv).
  apply sum_scores_Ok in Hs. destruct Hs as (Hall & Hq & _).
  apply py_truediv_Ok in Hdiv. subst m. split; [exact Hall |].
  unfold number_div. f_equal. apply Qred_complete. rewrite Hq.
  change (number_Q (NInt 0)) with 0%Q. rewrite Qplus_0_l. reflexivity.
Qed.

Lemma mean_score_Raise results e :
  mean_score results = Raise e ->
  (reader_error e /\ Exists (fun r => well_formed r = false) results)
  \/ (overflow_error e /\ float_limit <= score_weight results).
Proof.
  unfold mean_score.
  destruct (0 <? Z.of_nat (length results)) eqn:Hn; [| discriminate].
  apply Z.ltb_lt in Hn.
  intros Hr. apply obind_Raise in Hr. destruct Hr as [Hr | (s & Hs & Hr)].
  - apply sum_scores_Raise in Hr. exact Hr.
  - apply (py_truediv_Raise _ _ _ Hn) in Hr. destruct Hr as [He Hw].
    apply sum_scores_Ok in Hs. destruct Hs as (_ & _ & Hs).
    right. split; [exact He |]. simpl in Hs. lia.
Qed.

Lemma category_summary_Ok cat_results s :
  category_summary cat_results = Ok s -> s = summary_of cat_results.
Proof.
  unfold category_summary. intros Hs.
  apply obind_Ok in Hs. destruct Hs as (p & Hp & Hs).
  apply obind_Ok in Hs. destruct Hs as (m & Hm & Hs).
  apply sum_passed_Ok in Hp. destruct Hp as [_ ->].
  apply mean_score_Ok in Hm. destruct Hm as [_ ->].
  injection Hs as <-. reflexivity.
Qed.

Lemma category_summary_Raise cat_results e :
  category_summary cat_results = Raise e ->
  (reader_error e /\ Exists (fun r => well_formed r = false) cat_results)
  \/ (overflow_error e /\ float_limit <= score_weight cat_results).
Proof.
  unfold category_summary. intros Hr.
  apply obind_Raise in Hr. destruct Hr as [Hr | (p & _ & Hr)];
    [left; eapply sum_passed_Raise; exact Hr |].
  apply obind_Raise in Hr. destruct Hr as [Hr | (m & _ & Hr)];
    [now apply mean_score_Raise | discriminate].
Qed.

Lemma group_by_category_Ok d results g :
  group_by_category d results = Ok g ->
  Forall (fun r => exists c, getitem r "category" = Ok c
                             /\ hashable c = true) results
  /\ g = groups_of d results.
Proof.
  revert d. induction results as [| r results IH]; intros d Hg.
  - injection Hg as <-. split; [constructor | reflexivity].
  - simpl in Hg. apply obind_Ok in Hg. destruct Hg as (c & Hc & Hrest).
    destruct (hashable c) eqn:Hh; [| discriminate].
    apply IH in Hrest. destruct Hrest as [Hall ->].
    split; [constructor; eauto |].
    simpl. unfold category_of. now rewrite (getitem_field _ _ _ Hc).
Qed.

Lemma group_by_category_Raise d results e :
  group_by_category d results = Raise e ->
  reader_error e /\ Exists (fun r => well_formed r = false) results.
Proof.
  revert d. induction results as [| r results IH]; intros d; simpl;
    [discriminate |].
  intros Hr. apply obind_Raise in Hr. destruct Hr as [Hr | (c & Hc & Hr)].
  - apply getitem_Raise in Hr; [| simpl; auto].
    split; [tauto | constructor; tauto].
  - destruct (hashable c) eqn:Hh.
    + apply IH in Hr. split; [tauto | apply Exists_cons_tl; tauto].
    + injection Hr as <-. split; [right; eauto |]. constructor.
      eapply category_unreadable; eassumption.
Qed.

Lemma summarize_categories_Ok items l :
  summarize_categories items = Ok l ->
  l = map (fun '(k, g) => (k, summary_of g)) items.
Proof.
  revert l. induction items as [| [k g] items IH]; intros l Hl.
  - injection Hl as <-. reflexivity.
  - simpl in Hl. apply obind_Ok in Hl. destruct Hl as (s & Hs & Hl).
    apply obind_Ok in Hl. destruct Hl as (rest & Hrest & Hl).
    apply category_summary_Ok in Hs. apply IH in Hrest.
    injection Hl as <-. simpl. congruence.
Qed.

Lemma summarize_categories_Raise items e :
  summarize_categories items = Raise e ->
  exists k g, In (k, g) items /\ category_summary g = Raise e.
Proof.
  induction items as [| [k g] items IH]; simpl; [discriminate |].
  intros Hr. apply obind_Raise in Hr. destruct Hr as [Hr | (s & _ & Hr)].
  - exists k, g. split; [now left | exact Hr].
  - apply obind_Raise in Hr. destruct Hr as [Hr | (rest & _ & Hr)];
      [| discriminate].
    destruct (IH Hr) as (k' & g' & Hin & Hg). exists k', g'.
    split; [now right | exact Hg].
Qed.

(** When the reporter returns, the results are well formed and what it
    returns is [locals_of]. *)
Lemma report_locals_Ok results l :
  report_locals results = Ok l ->
  Forall (fun r => well_formed r = true) results /\ l = locals_of results.
Proof.
  unfold report_locals. intros Hl.
  apply obind_Ok in Hl. destruct Hl as (p & Hp & Hl).
  apply obind_Ok in Hl. destruct Hl as (m & Hm & Hl).
  apply obind_Ok in Hl. destruct Hl as (t & Ht & Hl).
  apply obind_Ok in Hl. destruct Hl as (ts & Hts & Hl).
  apply obind_Ok in Hl. destruct Hl as (g & Hg & Hl).
  apply obind_Ok in Hl. destruct Hl as (s & Hs & Hl).
  apply sum_passed_Ok in Hp. destruct Hp as [Hp ->].
  apply mean_score_Ok in Hm. destruct Hm as [Hm ->].
  apply sum_times_Ok in Ht. destruct Ht as (Ht & Hq & _).
  apply py_truediv_Ok in Hts. subst ts.
  apply group_by_category_Ok in Hg. destruct Hg as [Hg ->].
  apply summarize_categories_Ok in Hs. subst s.
  split.
  - rewrite List.Forall_forall in *. intros r Hin.
    destruct (Hp r Hin) as (vp & Hvp).
    destruct (Hm r Hin) as (vs & Hvs & Hsn).
    destruct (Ht r Hin) as (vt & Hvt & Htn).
    destruct (Hg r Hin) as (vc & Hvc & Hch).
    eapply well_formed_intro; eassumption.
  - injection Hl as <-. unfold locals_of, total_time_value, number_div.
    f_equal. f_equal. apply Qred_complete. rewrite Hq.
    change (number_Q (NInt 0)) with 0%Q. rewrite Qplus_0_l. reflexivity.
Qed.

(** When the reporter raises, a result is not well formed and the
    exception is a [KeyError] or a [TypeError], or the [int] scores or
    times have left the float range and it is an [OverflowError]. *)
Lemma report_locals_Raise results e :
  report_locals results = Raise e ->
  (reader_error e /\ Exists (fun r => well_formed r = false) results)
  \/ (overflow_error e /\ within_float_range results = false).
Proof.
  assert (Hscore : forall rs, float_limit <= score_weight rs ->
                              within_float_range rs = false).
  { intros rs Hw. unfold within_float_range.
    now replace (score_weight rs <? float_limit) with false
      by (symmetry; now apply Z.ltb_ge). }
  assert (Htime : forall rs, float_limit <= time_weight rs ->
                             within_float_range rs = false).
  { intros rs Hw. unfold within_float_range.
    replace (time_weight rs <? float_limit) with false
      by (symmetry; now apply Z.ltb_ge).
    apply andb_false_r. }
  unfold report_locals. intros Hr.
  apply obind_Raise in Hr. destruct Hr as [Hr | (p & _ & Hr)];
    [left; eapply sum_passed_Raise; exact Hr |].
  apply obind_Raise in Hr. destruct Hr as [Hr | (m & _ & Hr)].
  { apply mean_score_Raise in Hr. destruct Hr as [Hr | [He Hw]]; [now left |].
    right. split; [exact He | now apply Hscore]. }
  apply obind_Raise in Hr. destruct Hr as [Hr | (t & Ht & Hr)].
  { apply sum_times_Raise in Hr. destruct Hr as [Hr | [He Hw]]; [now left |].
    right. split; [exact He |]. apply Htime. simpl in Hw. lia. }
  apply obind_Raise in Hr. destruct Hr as [Hr | (ts & _ & Hr)].
  { apply py_truediv_Raise in Hr; [| lia]. destruct Hr as [He Hw].
    apply sum_times_Ok in Ht. destruct Ht as (_ & _ & Ht).
    right. split; [exact He |]. apply Htime. simpl in Ht. lia. }
  apply obind_Raise in Hr. destruct Hr as [Hr | (g & Hg & Hr)];
    [left; eapply group_by_category_Raise; exact Hr |].
  apply obind_Raise in Hr. destruct Hr as [Hr | (s & _ & Hr)];
    [| discriminate].
  apply group_by_category_Ok in Hg. destruct Hg as [_ ->].
  apply summarize_categories_Raise in Hr. destruct Hr as (k & c & Hin & Hr).
  apply category_summary_Raise in Hr. destruct Hr as [[He Hex] | [He Hw]].
  - left. split; [exact He |]. eapply groups_of_unreadable; eassumption.
  - right. split; [exact He |]. apply Hscore.
    pose proof (groups_of_weight (fun r => int_weight (field r "score"))
                  results k c (fun r => int_weight_nonneg _) Hin) as Hle.
    unfold score_weight in *. lia.
Qed.

(** On well-formed results within the float range the reporter returns,
    and what it returns is [locals_of]. *)
Lemma report_locals_wf results :
  Forall (fun r => well_formed r = true) results ->
  within_float_range results = true ->
  report_locals results = Ok (locals_of results).
Proof.
  intros Hwf Hrange. destruct (report_locals results) as [l | e] eqn:Hl.
  - apply report_locals_Ok in Hl. destruct Hl as [_ ->]. reflexivity.
  - apply report_locals_Raise in Hl. destruct Hl as [[_ Hex] | [_ Hw]].
    + destruct (unreadable_not_well_formed _ Hwf Hex).
    + congruence.
Qed.

End LocalsFacts.

Section GroupFacts.

Lemma dict_get_groups_of k d results :
  dict_get k (groups_of d results)
  = match dict_get k d, in_category k results with
    | None, [] => None
    | o, g => Some (default [] o ++ g)%list
    end.
Proof.
  revert d. induction results as [| r results IH]; intros d.
  - simpl. destruct (dict_get k d) as [g |]; [| reflexivity].
    simpl. now rewrite app_nil_r.
  - change (groups_of d (r :: results))
      with (groups_of (dict_append (category_of r) r d) results).
    rewrite IH, dict_get_dict_append. unfold in_category. simpl.
    destruct (py_eqb (category_of r) k).
    + simpl. rewrite <- app_assoc. simpl.
      destruct (dict_get k d); reflexivity.
    + reflexivity.
Qed.

Lemma dict_get_summaries k results :
  dict_get k (summary_by_category (locals_of results))
  = match in_category k results with
    | [] => None
    | g => Some (summary_of g)
    end.
Proof.
  unfold locals_of. simpl. rewrite dict_get_map, dict_get_groups_of. simpl.
  destruct (in_category k results); reflexivity.
Qed.

Lemma in_summaries_of_groups k s (d : list (pyval * list pyobj)) :
  In (k, s) (map (fun '(k, g) => (k, summary_of g)) d) ->
  exists g, s = summary_of g.
Proof.
  rewrite in_map_iff. intros ([k' g] & E & _). inversion E. eauto.
Qed.

End GroupFacts.

Section PermutationFacts.

Lemma filter_Permutation' {A} (f : A -> bool) l l' :
  Permutation l l' -> Permutation (List.filter f l) (List.filter f l').
Proof.
  induction 1 as [| x l l' _ IH | x y l | l l' l'' _ IH1 _ IH2]; simpl.
  - constructor.
  - destruct (f x); [now constructor | exact IH].
  - destruct (f x), (f y); try reflexivity. constructor.
  - etransitivity; eassumption.
Qed.

Lemma count_passed_Permutation results results' :
  Permutation results results' -> count_passed results = count_passed results'.
Proof.
  intros P. unfold count_passed. f_equal.
  apply Permutation_length. now apply filter_Permutation'.
Qed.

Lemma sum_Z_Permutation l l' : Permutation l l' -> sum_Z l = sum_Z l'.
Proof.
  induction 1 as [| x l l' _ IH | x y l | l l' l'' _ IH1 _ IH2]; simpl; lia.
Qed.

Lemma within_float_range_Permutation results results' :
  Permutation results results' ->
  within_float_range results' = within_float_range results.
Proof.
  intros P. unfold within_float_range, score_weight, time_weight.
  now rewrite (sum_Z_Permutation _ _ (Permutation_map _ P)),
    (sum_Z_Permutation _ _ (Permutation_map _ P)).
Qed.

(** The counts filed under a key do not depend on the order. *)
Lemma summary_counts_Permutation k results results' :
  Permutation results results' ->
  let at_key (f : CategorySummary.t -> Z) rs :=
    f <$> dict_get k (summary_by_category (locals_of rs)) in
  at_key CategorySummary.tests_run results'
  = at_key CategorySummary.tests_run results
  /\ at_key CategorySummary.passed results'
     = at_key CategorySummary.passed results
  /\ at_key CategorySummary.failed results'
     = at_key CategorySummary.failed results.
Proof.
  intros P at_key. unfold at_key. rewrite !dict_get_summaries.
  assert (Pk : Permutation (in_category k results) (in_category k results'))
    by now apply filter_Permutation'.
  pose proof (Permutation_length Pk) as Hlen.
  pose proof (count_passed_Permutation _ _ Pk) as Hpassed.
  destruct (in_category k results) as [| r g],
    (in_category k results') as [| r' g']; try discriminate.
  - repeat split.
  - simpl option_fmap. unfold summary_of. simpl.
    simpl in Hlen. rewrite Hpassed.
    injection Hlen as ->. repeat split.
Qed.

End PermutationFacts.

(** C9. On results the reporter can read, whose [int] scores and times are
    within the float range, it returns; and in what it returns the passed
    and the failed count add up to the number of tests, in the overall
    summary and in the summary of every category. On the empty list it
    returns zero tests, the mean 0 and no category, and the report is
    written when the template renders and the file can be written. *)
Theorem report_counts_add_up `{Env} :
  (forall results,
      Forall (fun r => well_formed r = true) results ->
      within_float_range results = true ->
      returns (report_locals results))
  /\ (forall results l,
         report_locals results = Ok l ->
         passed_tests l + failed_tests l = total_tests l
         /\ Summary.passed (report_summary l) + Summary.failed (report_summary l)
            = Summary.total_tests (report_summary l)
         /\ forall k s,
              In (k, s) (summary_by_category l) ->
              CategorySummary.passed s + CategorySummary.failed s
              = CategorySummary.tests_run s)
  /\ report_locals []
     = Ok {| total_tests := 0; passed_tests := 0; failed_tests := 0;
             average_score := NInt 0; total_time_s := NFloat 0;
             results_by_category := []; summary_by_category := [] |}
  /\ (forall output_path w html l,
         report_locals [] = Ok l ->
         render_report (report_summary l) [] [] = Ok html ->
         write_text output_path html = Ok tt ->
         Summary.total_tests (report_summary l) = 0
         /\ Summary.average_score (report_summary l) = format_2f (NInt 0)
         /\ generate_html_report [] output_path w
            = (Ok tt, {| ticks := ticks w;
                         trace := (trace w ++ [EvWrite output_path html])%list |})).
Proof.
  split; [| split; [| split]].
  - intros results Hwf Hrange. exists (locals_of results).
    now apply report_locals_wf.
  - intros results l Hl. apply report_locals_Ok in Hl. destruct Hl as [_ ->].
    split; [simpl; lia |]. split; [simpl; lia |].
    intros k s Hin. apply in_summaries_of_groups in Hin.
    destruct Hin as [g ->]. simpl. lia.
  - reflexivity.
  - intros output_path w html l Hl Hrender Hwrite.
    apply report_locals_Ok in Hl. destruct Hl as [_ ->].
    split; [reflexivity |]. split; [reflexivity |].
    unfold generate_html_report, bind, lift.
    change (report_locals []) with (Ok (locals_of [])). cbv iota beta.
    change (summary_by_category (locals_of []))
      with (@nil (pyval * CategorySummary.t)).
    rewrite Hrender. simpl. rewrite Hwrite. reflexivity.
Qed.

Lemma report_counts_add_up_witness :
  exists l,
    report_locals DemoResults.trials = Ok l
    /\ passed_tests l + failed_tests l = total_tests l
    /\ total_tests l = 3.
Proof.
  destruct (@report_counts_add_up Demo.env) as (Hreturns & Hcounts & _).
  destruct (Hreturns DemoResults.trials) as [l Hl].
  { repeat constructor. }
  { vm_compute. reflexivity. }
  exists l. split; [exact Hl |]. split.
  - exact (proj1 (Hcounts _ _ Hl)).
  - vm_compute in Hl. injection Hl as <-. reflexivity.
Defined.




(** C10 fails as stated: the mean of a summary is a sum of floats taken in
    the order of the results, and the sum rounds. The four trials of
    [Binary64.trials] are of one category and have the scores
    0.3333333333333333, [2 ^ -106], 0.7 and [2 ^ -54]; in this order their
    mean is 0.2583333333333333, and in the order of [Binary64.shuffled] it
    is 0.25833333333333336, with the compensated sum of Python 3.12 as
    with the plain sum of the versions before. *)
Lemma mean_depends_on_order :
  Permutation Binary64.trials Binary64.shuffled
  /\ Forall (fun r => well_formed r = true) Binary64.trials
  /\ Binary64.scores_of Binary64.trials = Binary64.trial_scores
  /\ Binary64.average_score Binary64.compensated_sum
       (Binary64.scores_of Binary64.trials) = Binary64.mean_below
  /\ Binary64.average_score Binary64.compensated_sum
       (Binary64.scores_of Binary64.shuffled) = Binary64.mean_above
  /\ Binary64.average_score Binary64.plain_sum
       (Binary64.scores_of Binary64.trials) = Binary64.mean_below
  /\ Binary64.average_score Binary64.plain_sum
       (Binary64.scores_of Binary64.shuffled) = Binary64.mean_above
  /\ Binary64.mean_below <> Binary64.mean_above.
Proof.
  split.
  { unfold Binary64.trials, Binary64.shuffled.
    eapply perm_trans; [apply perm_swap |]. apply perm_skip.
    eapply perm_trans; [apply perm_swap |].
    eapply perm_trans; [apply perm_skip, perm_swap |].
    apply perm_swap. }
  split; [repeat constructor |].
  split; [vm_compute; reflexivity |].
  split; [vm_compute; reflexivity |].
  split; [vm_compute; reflexivity |].
  split; [vm_compute; reflexivity |].
  split; [vm_compute; reflexivity |].
  vm_compute. intros E. discriminate.
Qed.

(** C10, as the code has it. The counts of the reporter do not depend on
    the order of the results: when it returns on a list and on a
    permutation of it, the number of tests, the passed and the failed count
    are the same, overall and under every category key, and the same keys
    have a summary. On results it can read, whose [int] scores and times
    are within the float range, it returns in every order. The means and
    the total time are sums of floats and are left out. *)
Theorem aggregation_counts_order_independent (results results' : list pyobj) :
  Permutation results results' ->
  (Forall (fun r => well_formed r = true) results ->
   within_float_range results = true ->
   returns (report_locals results) /\ returns (report_locals results'))
  /\ (forall l l',
        report_locals results = Ok l ->
        report_locals results' = Ok l' ->
        total_tests l' = total_tests l
        /\ passed_tests l' = passed_tests l
        /\ failed_tests l' = failed_tests l
        /\ forall k,
             CategorySummary.tests_run <$> dict_get k (summary_by_category l')
             = CategorySummary.tests_run <$> dict_get k (summary_by_category l)
             /\ CategorySummary.passed <$> dict_get k (summary_by_category l')
                = CategorySummary.passed <$> dict_get k (summary_by_category l)
             /\ CategorySummary.failed <$> dict_get k (summary_by_category l')
                = CategorySummary.failed <$> dict_get k (summary_by_category l)).
Proof.
  intros P. split.
  - intros Hwf Hrange. split; eexists; apply report_locals_wf; try assumption.
    + eapply Permutation_Forall; eassumption.
    + now rewrite (within_float_range_Permutation _ _ P).
  - intros l l' Hl Hl'. apply report_locals_Ok in Hl, Hl'.
    destruct Hl as [_ ->], Hl' as [_ ->].
    assert (Hlen : total_tests (locals_of results')
                   = total_tests (locals_of results))
      by (simpl; now rewrite (Permutation_length P)).
    assert (Hpass : passed_tests (locals_of results')
                    = passed_tests (locals_of results))
      by (symmetry; now apply count_passed_Permutation).
    split; [exact Hlen |]. split; [exact Hpass |].
    split; [simpl in *; now rewrite Hlen, Hpass |].
    intros k. exact (summary_counts_Permutation k _ _ P).
Qed.

Lemma aggregation_counts_order_independent_witness :
  exists l l',
    report_locals DemoResults.trials = Ok l
    /\ report_locals DemoResults.shuffled = Ok l'
    /\ passed_tests l' = passed_tests l
    /\ CategorySummary.tests_run
         <$> dict_get (PStr "math") (summary_by_category l')
       = Some 2.
Proof.
  assert (P : Permutation DemoResults.trials DemoResults.shuffled).
  { unfold DemoResults.trials, DemoResults.shuffled.
    eapply perm_trans; [apply perm_swap |].
    eapply perm_trans; [apply perm_skip, perm_swap |].
    apply perm_swap. }
  destruct (aggregation_counts_order_independent _ _ P) as [Hreturns Hsame].
  destruct Hreturns as [[l Hl] [l' Hl']];
    [repeat constructor | vm_compute; reflexivity |].
  exists l, l'. split; [exact Hl |]. split; [exact Hl' |].
  destruct (Hsame l l' Hl Hl') as (_ & Hpass & _ & Hkey).
  split; [exact Hpass |].
  destruct (Hkey (PStr "math")) as [Htests _]. rewrite Htests.
  vm_compute in Hl. injection Hl as <-. reflexivity.
Defined.

(* ===================================================================== *)
(** * Further properties of the code *)
(* ===================================================================== *)

(* ===================================================================== *)
(** ** Whitespace and the strategies that strip *)
(* ===================================================================== *)

Section StripFacts.

Lemma append_nil_l (s : string) : "" ++ s = s.
Proof. reflexivity. Qed.

Lemma append_cons c (s t : string) : String c s ++ t = String c (s ++ t).
Proof. reflexivity. Qed.

Lemma lstrip_whitespace ws : whitespace ws = true -> lstrip ws = "".
Proof.
  induction ws as [| c ws IH]; simpl; [reflexivity |].
  intros Hw. apply andb_prop in Hw. destruct Hw as [Hc Hw].
  rewrite Hc. now apply IH.
Qed.

Lemma rstrip_whitespace ws : whitespace ws = true -> rstrip ws = "".
Proof.
  induction ws as [| c ws IH]; simpl; [reflexivity |].
  intros Hw. apply andb_prop in Hw. destruct Hw as [Hc Hw].
  rewrite (IH Hw), Hc. reflexivity.
Qed.

Lemma lstrip_app_whitespace ws s :
  whitespace ws = true -> lstrip (ws ++ s) = lstrip s.
Proof.
  induction ws as [| c ws IH]; [reflexivity |].
  intros Hw. simpl in Hw. apply andb_prop in Hw. destruct Hw as [Hc Hw].
  rewrite append_cons. simpl. rewrite Hc. now apply IH.
Qed.

Lemma rstrip_app_whitespace s ws :
  whitespace ws = true -> rstrip (s ++ ws) = rstrip s.
Proof.
  intros Hw. induction s as [| c s IH].
  - rewrite append_nil_l. now apply rstrip_whitespace.
  - rewrite append_cons. simpl. now rewrite IH.
Qed.

Lemma strip_app_whitespace_r s ws :
  whitespace ws = true -> strip (s ++ ws) = strip s.
Proof.
  intros Hw. unfold strip. induction s as [| c s IH].
  - rewrite append_nil_l, (lstrip_whitespace _ Hw). reflexivity.
  - rewrite append_cons. simpl. destruct (isspace c); [exact IH |].
    rewrite <- append_cons. now apply rstrip_app_whitespace.
Qed.

Lemma strip_pad ws1 s ws2 :
  whitespace ws1 = true -> whitespace ws2 = true ->
  strip (ws1 ++ s ++ ws2) = strip s.
Proof.
  intros H1 H2. unfold strip at 1. rewrite (lstrip_app_whitespace _ _ H1).
  now apply strip_app_whitespace_r.
Qed.

(** What is left of [lstrip] does not start with whitespace. *)
Lemma lstrip_head s :
  lstrip s = "" \/ exists c t, lstrip s = String c t /\ isspace c = false.
Proof.
  induction s as [| c s IH]; simpl; [now left |].
  destruct (isspace c) eqn:Hc; [exact IH | right; eauto].
Qed.

Lemma rstrip_head c t :
  isspace c = false -> exists r, rstrip (String c t) = String c r.
Proof.
  intros Hc. simpl. destruct (rstrip t); rewrite ?Hc; eauto.
Qed.

Lemma rstrip_idempotent s : rstrip (rstrip s) = rstrip s.
Proof.
  induction s as [| c s IH]; simpl; [reflexivity |].
  destruct (rstrip s) as [| c' r] eqn:E.
  - destruct (isspace c) eqn:Hc; simpl; [reflexivity | now rewrite Hc].
  - simpl. simpl in IH. rewrite IH. reflexivity.
Qed.

Lemma strip_idempotent s : strip (strip s) = strip s.
Proof.
  unfold strip. destruct (lstrip_head s) as [E | (c & t & E & Hc)].
  - rewrite E. reflexivity.
  - rewrite E. destruct (rstrip_head c t Hc) as [r Er]. rewrite Er.
    simpl. rewrite Hc. rewrite <- Er. apply rstrip_idempotent.
Qed.

End StripFacts.

(** X1. Whitespace around the response or around a string reference does
    not change what [exact_match] returns, verdict and score alike; a
    response that is already stripped is scored like the raw one. *)
Theorem exact_match_ignores_surrounding_whitespace `{Scorers}
  (ws1 ws2 response : string) (ev : Evaluation) (expected : string) :
  whitespace ws1 = true -> whitespace ws2 = true ->
  expected_answer ev = PStr expected ->
  exact_match_evaluator (ws1 ++ response ++ ws2) ev
  = exact_match_evaluator response ev
  /\ exact_match_evaluator (strip response) ev
     = exact_match_evaluator response ev
  /\ exact_match_evaluator response
       {| type := type ev;
          expected_answer := PStr (ws1 ++ expected ++ ws2);
          acceptable_variations := acceptable_variations ev;
          regex_pattern := regex_pattern ev |}
     = exact_match_evaluator response ev.
Proof.
  intros H1 H2 He. unfold exact_match_evaluator. simpl.
  rewrite He. simpl.
  rewrite !(strip_pad _ _ _ H1 H2), strip_idempotent. repeat split.
Qed.

Lemma exact_match_ignores_surrounding_whitespace_witness :
  @exact_match_evaluator Demo.scorers "  Paris  " Demo.capital
  = @exact_match_evaluator Demo.scorers "Paris" Demo.capital.
Proof.
  apply (@exact_match_ignores_surrounding_whitespace Demo.scorers
           "  " "  " "Paris" Demo.capital "Paris");
    reflexivity.
Defined.

(** X2. The semantic-similarity strategy ([bert_score]) never fails a
    response: with a string reference it returns [passed] true and, as
    score, the F1 of the stripped response against the stripped reference,
    so that whitespace around the response does not matter; with any other
    reference it raises the [TypeError] and returns nothing. *)
Theorem bertscore_always_passes `{Scorers} (response : string) (ev : Evaluation) :
  (forall res,
      bertscore_evaluator response ev = Ok res ->
      EvalResult.passed res = true
      /\ exists expected,
           expected_answer ev = PStr expected
           /\ EvalResult.score res
              = bert_scorer [strip response] [strip expected] "en")
  /\ (returns (bertscore_evaluator response ev)
      <-> exists expected, expected_answer ev = PStr expected)
  /\ (forall ws1 ws2,
        whitespace ws1 = true -> whitespace ws2 = true ->
        bertscore_evaluator (ws1 ++ response ++ ws2) ev
        = bertscore_evaluator response ev).
Proof.
  unfold bertscore_evaluator. split; [| split].
  - intros res Hres. destruct (expected_answer ev); try discriminate.
    injection Hres as <-. simpl. eauto.
  - split.
    + intros [res Hres]. destruct (expected_answer ev); try discriminate. eauto.
    + intros [expected ->]. now eexists.
  - intros ws1 ws2 H1 H2. now rewrite (strip_pad _ _ _ H1 H2).
Qed.

Lemma bertscore_always_passes_witness :
  @bertscore_evaluator Demo.scorers " positive " Demo.sentiment
  = @bertscore_evaluator Demo.scorers "positive" Demo.sentiment.
Proof.
  destruct (@bertscore_always_passes Demo.scorers "positive" Demo.sentiment)
    as (_ & _ & Hpad).
  apply (Hpad " " " "); reflexivity.
Defined.

(** X3. Listing more acceptable variations never changes the score of
    [exact_match] and never turns a response that passed into one that
    fails. *)
Theorem exact_match_more_variations `{Scorers} (response : string)
  (ev : Evaluation) (extra : list string) (res res' : EvalResult.t) :
  exact_match_evaluator response ev = Ok res ->
  exact_match_evaluator response
    {| type := type ev;
       expected_answer := expected_answer ev;
       acceptable_variations :=
         Some (default [] (acceptable_variations ev) ++ extra)%list;
       regex_pattern := regex_pattern ev |} = Ok res' ->
  EvalResult.score res' = EvalResult.score res
  /\ (EvalResult.passed res = true -> EvalResult.passed res' = true).
Proof.
  intros Hres Hres'.
  destruct (exact_match_passed_iff response ev) as (r & Hr & Hs & Hiff).
  destruct (exact_match_passed_iff response
              {| type := type ev;
                 expected_answer := expected_answer ev;
                 acceptable_variations :=
                   Some (default [] (acceptable_variations ev) ++ extra)%list;
                 regex_pattern := regex_pattern ev |})
    as (r' & Hr' & Hs' & Hiff').
  simpl in Hs', Hiff'.
  rewrite Hres in Hr. injection Hr as <-.
  rewrite Hres' in Hr'. injection Hr' as <-.
  split; [congruence |].
  intros Hp. apply Hiff'. apply Hiff in Hp.
  destruct Hp as [E | (var & Hin & E)]; [now left | right].
  exists var. split; [| exact E]. apply in_or_app. now left.
Qed.

Lemma exact_match_more_variations_witness :
  exists res',
    @exact_match_evaluator Demo.scorers " paris "
      {| type := "exact_match"; expected_answer := PStr "Paris";
         acceptable_variations := Some ["paris"; "PARIS"; "Paname"];
         regex_pattern := None |} = Ok res'
    /\ EvalResult.passed res' = true.
Proof.
  eexists. split; [reflexivity |].
  refine (proj2 (@exact_match_more_variations Demo.scorers " paris "
                   Demo.capital ["Paname"] _ _ eq_refl eq_refl) _).
  reflexivity.
Defined.

(* ===================================================================== *)
(** ** What the dispatcher can raise *)
(* ===================================================================== *)

Section DispatchErrors.
Context `{Scorers}.

Lemma exact_match_evaluator_returns response ev :
  returns (exact_match_evaluator response ev).
Proof. unfold exact_match_evaluator. now eexists. Qed.

Lemma regex_match_evaluator_raise response ev e :
  regex_match_evaluator response ev = Raise e <->
  ((regex_pattern ev = None \/ regex_pattern ev = Some "")
   /\ e = ValueError "Regex pattern not provided for regex_match evaluator.")
  \/ (exists pattern,
        regex_pattern ev = Some pattern /\ pattern <> ""
        /\ re_search pattern response = Raise e).
Proof.
  unfold regex_match_evaluator.
  destruct (regex_pattern ev) as [[| c p] |] eqn:E.
  - split.
    + intros [= <-]. left. split; [now right | reflexivity].
    + intros [[_ ->] | (pattern & [= <-] & N & _)]; [reflexivity | congruence].
  - split.
    + intros Hr. right. exists (String c p). split; [reflexivity |].
      split; [discriminate |].
      destruct (re_search (String c p) response);
        [discriminate | simpl in Hr; congruence].
    + intros [[[D | D] _] | (pattern & [= <-] & _ & ->)];
        [discriminate | discriminate | reflexivity].
  - split.
    + intros [= <-]. left. split; [now left | reflexivity].
    + intros [[_ ->] | (pattern & D & _)]; [reflexivity | discriminate].
Qed.

Lemma bertscore_evaluator_raise response ev e :
  bertscore_evaluator response ev = Raise e <->
  (forall s, expected_answer ev <> PStr s)
  /\ e = TypeError "expected_answer must be a string for BERTScore.".
Proof.
  unfold bertscore_evaluator. split.
  - intros Hr. destruct (expected_answer ev); try discriminate;
      injection Hr as <-; (split; [intros s0; discriminate | reflexivity]).
  - intros [N ->]. destruct (expected_answer ev) eqn:E; try reflexivity.
    now destruct (N s).
Qed.

End DispatchErrors.

(** X4. [evaluate_response] raises in four cases and in no other: the
    [type] is not a key of the table; the type is [regex_match] and the
    pattern is missing or empty; the type is [regex_match] and [re.search]
    itself raises on the pattern, its exception coming out unchanged; the
    type is [bert_score] and the expected answer is not a string. An
    [exact_match] evaluation never raises. *)
Theorem evaluate_response_raises_iff `{Scorers} (response : string)
  (ev : Evaluation) (e : exn) :
  evaluate_response response ev = Raise e <->
  (type ev <> "exact_match" /\ type ev <> "regex_match"
   /\ type ev <> "bert_score"
   /\ e = ValueError ("Unknown evaluation type: " ++ type ev))
  \/ (type ev = "regex_match"
      /\ (regex_pattern ev = None \/ regex_pattern ev = Some "")
      /\ e = ValueError "Regex pattern not provided for regex_match evaluator.")
  \/ (type ev = "regex_match"
      /\ exists pattern,
           regex_pattern ev = Some pattern /\ pattern <> ""
           /\ re_search pattern response = Raise e)
  \/ (type ev = "bert_score"
      /\ (forall s, expected_answer ev <> PStr s)
      /\ e = TypeError "expected_answer must be a string for BERTScore.").
Proof.
  destruct (String.eqb_spec (type ev) "exact_match") as [E1 | N1].
  { rewrite (evaluate_response_exact _ _ E1).
    destruct (exact_match_evaluator_returns response ev) as [res ->].
    split; [discriminate |].
    intros [(N & _) | [(E & _) | [(E & _) | (E & _)]]]; congruence. }
  destruct (String.eqb_spec (type ev) "regex_match") as [E2 | N2].
  { rewrite (evaluate_response_regex _ _ E2), regex_match_evaluator_raise.
    split.
    - intros [[Hp ->] | Hs]; [right; left | right; right; left]; tauto.
    - intros [(_ & N & _) | [(_ & Hp & ->) | [(_ & Hs) | (E & _)]]];
        [contradiction | now left | now right | congruence]. }
  destruct (String.eqb_spec (type ev) "bert_score") as [E3 | N3].
  { rewrite (evaluate_response_bert _ _ E3), bertscore_evaluator_raise.
    split.
    - intros [Hn ->]. right; right; right. tauto.
    - intros [(_ & _ & N & _) | [(E & _) | [(E & _) | (_ & Hn & ->)]]];
        [contradiction | congruence | congruence | tauto]. }
  rewrite (evaluate_response_unknown _ _ N1 N2 N3). split.
  - intros [= <-]. left. tauto.
  - intros [(_ & _ & _ & ->) | [(E & _) | [(E & _) | (E & _)]]];
      [reflexivity | contradiction | contradiction | contradiction].
Qed.

(* ===================================================================== *)
(** ** What the constructor of an evaluation accepts *)
(* ===================================================================== *)

Section ValidationFacts.

Lemma validate_list_str_Ok field l r :
  validate_list_str field l = Ok r <-> l = map PStr r.
Proof.
  revert r. induction l as [| v l IH]; intros r; simpl.
  - split.
    + intros [= <-]. reflexivity.
    + destruct r; [reflexivity | discriminate].
  - destruct v; simpl; try (split; [discriminate | destruct r; discriminate]).
    destruct (validate_list_str field l) as [r' |] eqn:E; simpl.
    + split.
      * intros [= <-]. simpl. f_equal. now apply IH.
      * destruct r as [| s' r]; [discriminate |]. intros [= -> Hl].
        apply IH in Hl. congruence.
    + split; [discriminate |].
      destruct r as [| s' r]; [discriminate |]. intros [= -> Hl].
      apply IH in Hl. discriminate.
Qed.

Lemma validate_optional_list_str_returns field v :
  returns (validate_optional_list_str field v) <->
  v = None \/ v = Some PNone \/ exists l, v = Some (PList (map PStr l)).
Proof.
  unfold returns. destruct v as [[| | | | | l] |]; simpl;
    try (split; [now (intros _; auto) | now (intros _; eexists)]);
    try (split; [intros [a D]; discriminate
                | intros [D | [D | [l' D]]]; discriminate]).
  destruct (validate_list_str field l) as [r |] eqn:E; simpl.
  - split; [| now (intros _; eexists)].
    intros _. right; right. exists r. do 2 f_equal.
    now apply (validate_list_str_Ok field).
  - split; [intros [a D]; discriminate |].
    intros [D | [D | [l' [= ->]]]]; try discriminate.
    assert (Hok : validate_list_str field (map PStr l') = Ok l')
      by now apply validate_list_str_Ok.
    congruence.
Qed.

Lemma validate_optional_str_returns field v :
  returns (validate_optional_str field v) <->
  v = None \/ v = Some PNone \/ exists s, v = Some (PStr s).
Proof.
  unfold returns. destruct v as [[| | | | s |] |]; simpl;
    try (split; [now (intros _; eauto) | now (intros _; eexists)]);
    split; try (intros [a D]; discriminate);
    intros [D | [D | [l' D]]]; discriminate.
Qed.

End ValidationFacts.

(** X5. [Evaluation(...)] is constructed exactly when [type] is given and is
    a string, [acceptable_variations] is absent, [None] or a list of
    strings, and [regex_pattern] is absent, [None] or a string; nothing is
    asked of [expected_answer] and the value of [type] is not looked at.
    The evaluation built holds the type as given and [None] for an expected
    answer that was not given. *)
Theorem Evaluation_init_accepts_iff (data : gmap string pyval) :
  (returns (Evaluation_init data) <->
   (exists ty, data !! "type" = Some (PStr ty))
   /\ (data !! "acceptable_variations" = None
       \/ data !! "acceptable_variations" = Some PNone
       \/ exists l, data !! "acceptable_variations" = Some (PList (map PStr l)))
   /\ (data !! "regex_pattern" = None
       \/ data !! "regex_pattern" = Some PNone
       \/ exists s, data !! "regex_pattern" = Some (PStr s)))
  /\ (forall ev,
        Evaluation_init data = Ok ev ->
        data !! "type" = Some (PStr (type ev))
        /\ expected_answer ev = default PNone (data !! "expected_answer")).
Proof.
  split.
  - rewrite <- (validate_optional_list_str_returns "acceptable_variations"),
      <- (validate_optional_str_returns "regex_pattern").
    unfold Evaluation_init, returns. split.
    + intros [ev Hev]. destruct (data !! "type") as [ty |]; [| discriminate].
      apply obind_Ok in Hev. destruct Hev as (ty' & Hty & Hev).
      apply obind_Ok in Hev. destruct Hev as (vars & Hvars & Hev).
      apply obind_Ok in Hev. destruct Hev as (pat & Hpat & Hev).
      destruct ty; try discriminate.
      split; [eauto | split; eauto].
    + intros ([ty ->] & [vars Hvars] & [pat Hpat]). simpl.
      rewrite Hvars. simpl. rewrite Hpat. simpl. now eexists.
  - intros ev Hev. unfold Evaluation_init in Hev.
    destruct (data !! "type") as [ty |]; [| discriminate].
    apply obind_Ok in Hev. destruct Hev as (ty' & Hty & Hev).
    apply obind_Ok in Hev. destruct Hev as (vars & Hvars & Hev).
    apply obind_Ok in Hev. destruct Hev as (pat & Hpat & Hev).
    injection Hev as <-. simpl. destruct ty; try discriminate.
    injection Hty as ->. split; reflexivity.
Qed.

Lemma evaluate_response_raises_iff_witness :
  @evaluate_response Demo.scorers "positive" Demo.sentiment
  = Raise (ValueError "Unknown evaluation type: sentiment").
Proof.
  apply (proj2 (@evaluate_response_raises_iff Demo.scorers "positive"
                  Demo.sentiment _)).
  left. repeat split; discriminate.
Defined.

Lemma Evaluation_init_accepts_iff_witness :
  returns (Evaluation_init
             (<["acceptable_variations" := PList [PStr "paris"; PStr "PARIS"]]>
                {["type" := PStr "exact_match"]})).
Proof.
  apply (proj2 (proj1 (Evaluation_init_accepts_iff _))).
  split; [now exists "exact_match" |]. split.
  - right; right. now exists ["paris"; "PARIS"].
  - now left.
Defined.

(* ===================================================================== *)
(** ** One trial, step by step *)
(* ===================================================================== *)

Section TrialFacts.
Context `{Scorers} `{Env}.

(** [_call_llm] in one equation. *)
Lemma _call_llm_eq test_case model w :
  _call_llm test_case model w
  = (Ok (let execution_time_ms :=
           Qred ((time_time (S (ticks w)) - time_time (ticks w)) * 1000) in
         match chat_completions_create model test_case with
         | inr response =>
             {| LLMResult.actual_output := content response;
                LLMResult.prompt_tokens := usage_prompt_tokens response;
                LLMResult.completion_tokens := usage_completion_tokens response;
                LLMResult.execution_time_ms := execution_time_ms;
                LLMResult.error := None |}
         | inl msg =>
             {| LLMResult.actual_output := "";
                LLMResult.prompt_tokens := 0;
                LLMResult.completion_tokens := 0;
                LLMResult.execution_time_ms := execution_time_ms;
                LLMResult.error := Some msg |}
         end),
     {| ticks := S (S (ticks w));
        trace := (trace w ++ [EvChat model test_case])%list |}).
Proof.
  unfold _call_llm, bind, emit, time, ret. simpl.
  destruct (chat_completions_create model test_case); reflexivity.
Qed.

Lemma _load_test_eq test_path w :
  _load_test test_path w
  = (obind (json_load test_path) TestDefinition_init,
     {| ticks := ticks w; trace := (trace w ++ [EvLoad test_path])%list |}).
Proof.
  unfold _load_test, bind, emit, lift. simpl.
  destruct (json_load test_path); reflexivity.
Qed.

(** [run_test] in one equation. *)
Lemma run_test_eq test_path model w :
  run_test test_path model w
  = match obind (json_load test_path) TestDefinition_init with
    | Raise e =>
        (Raise e,
         {| ticks := ticks w; trace := (trace w ++ [EvLoad test_path])%list |})
    | Ok test_def =>
        let execution_time_ms :=
          Qred ((time_time (S (ticks w)) - time_time (ticks w)) * 1000) in
        let called :=
          (trace w ++ [EvLoad test_path; EvChat model (test_case test_def)])%list in
        let scored text tokens_in tokens_out error :=
          let w' :=
            {| ticks := S (S (ticks w));
               trace := (called ++ [EvEvaluate text (evaluation test_def)])%list |} in
          match evaluate_response text (evaluation test_def) with
          | Raise e => (Raise e, w')
          | Ok res =>
              (Ok {| TestResult.test_id := test_id test_def;
                     TestResult.passed := EvalResult.passed res;
                     TestResult.score := EvalResult.score res;
                     TestResult.actual_output := text;
                     TestResult.expected_output :=
                       expected_answer (evaluation test_def);
                     TestResult.error_message := error;
                     TestResult.execution_time_ms := execution_time_ms;
                     TestResult.prompt_tokens := Some tokens_in;
                     TestResult.completion_tokens := Some tokens_out |}, w')
          end in
        match chat_completions_create model (test_case test_def) with
        | inr response =>
            scored (content response) (usage_prompt_tokens response)
              (usage_completion_tokens response) None
        | inl msg =>
            if String.eqb msg ""
            then scored "" 0 0 (Some msg)
            else
              (Ok {| TestResult.test_id := test_id test_def;
                     TestResult.passed := false;
                     TestResult.score := 0%Q;
                     TestResult.actual_output := "";
                     TestResult.expected_output :=
                       expected_answer (evaluation test_def);
                     TestResult.error_message := Some msg;
                     TestResult.execution_time_ms := execution_time_ms;
                     TestResult.prompt_tokens := Some 0;
                     TestResult.completion_tokens := Some 0 |},
               {| ticks := S (S (ticks w)); trace := called |})
        end
    end.
Proof.
  unfold run_test. unfold bind at 1. rewrite _load_test_eq.
  destruct (obind (json_load test_path) TestDefinition_init) as [td | e];
    [| reflexivity].
  unfold bind at 1. rewrite _call_llm_eq. cbv zeta.
  destruct (chat_completions_create model (test_case td)) as [msg | response].
  - cbn [LLMResult.error LLMResult.actual_output error_truthy truthy trace ticks].
    destruct (String.eqb msg "") eqn:Em; cbn [negb].
    + unfold bind, emit, lift, ret. cbn [trace ticks].
      rewrite <- !app_assoc. cbn [app].
      destruct (evaluate_response "" (evaluation td)); reflexivity.
    + unfold bind, ret. cbn [trace ticks]. rewrite <- !app_assoc. reflexivity.
  - cbn [LLMResult.error LLMResult.actual_output error_truthy trace ticks].
    unfold bind, emit, lift, ret. cbn [trace ticks].
    rewrite <- !app_assoc. cbn [app].
    destruct (evaluate_response (content response) (evaluation td));
      reflexivity.
Qed.

End TrialFacts.

Section TrialOutcomes.
Context `{Scorers} `{Env}.

Lemma load_raise_cases test_path e :
  obind (json_load test_path) TestDefinition_init = Raise e <->
  json_load test_path = Raise e
  \/ exists data, json_load test_path = Ok data
                  /\ TestDefinition_init data = Raise e.
Proof.
  destruct (json_load test_path) as [data | e'] eqn:E; simpl.
  - split; [eauto |]. intros [D | (data' & [= <-] & Hd)]; [discriminate | exact Hd].
  - split; [intros [= ->]; now left |].
    intros [D | (data' & D & _)]; [congruence | discriminate].
Qed.

Lemma load_Ok_cases test_path td :
  obind (json_load test_path) TestDefinition_init = Ok td <->
  exists data, json_load test_path = Ok data /\ TestDefinition_init data = Ok td.
Proof.
  destruct (json_load test_path) as [data | e'] eqn:E; simpl.
  - split; [eauto |]. intros (data' & [= <-] & Hd). exact Hd.
  - split; [discriminate |]. intros (data' & D & _). discriminate.
Qed.

Lemma run_test_Ok_ticks test_path model w r w' :
  run_test test_path model w = (Ok r, w') -> ticks w' = S (S (ticks w)).
Proof.
  rewrite run_test_eq.
  destruct (obind (json_load test_path) TestDefinition_init) as [td | e];
    [| discriminate].
  cbv zeta.
  destruct (chat_completions_create model (test_case td)) as [msg | response].
  - destruct (String.eqb msg "").
    + destruct (evaluate_response "" (evaluation td)); intros [= <- <-];
        reflexivity.
    + intros [= <- <-]. reflexivity.
  - destruct (evaluate_response (content response) (evaluation td));
      intros [= <- <-]; reflexivity.
Qed.

End TrialOutcomes.

(** X6. [_call_llm] never raises, whatever the backend does: it reads the
    clock twice and calls the backend once, and what it returns carries the
    elapsed time in milliseconds on success and on failure alike. Its
    [error] is [None] exactly when the backend answered; when the backend
    raised, the output is empty, both token counts are 0 and [error] is the
    message of the exception. *)
Theorem _call_llm_never_raises `{Scorers} `{Env} (test_case : TestCase)
  (model : string) (w : World) :
  exists res,
    _call_llm test_case model w
    = (Ok res,
       {| ticks := S (S (ticks w));
          trace := (trace w ++ [EvChat model test_case])%list |})
    /\ LLMResult.execution_time_ms res
       = Qred ((time_time (S (ticks w)) - time_time (ticks w)) * 1000)
    /\ (LLMResult.error res = None
        <-> exists response,
              chat_completions_create model test_case = inr response)
    /\ (forall response,
          chat_completions_create model test_case = inr response ->
          LLMResult.actual_output res = content response
          /\ LLMResult.prompt_tokens res = usage_prompt_tokens response
          /\ LLMResult.completion_tokens res = usage_completion_tokens response)
    /\ (forall msg,
          chat_completions_create model test_case = inl msg ->
          LLMResult.error res = Some msg
          /\ LLMResult.actual_output res = ""
          /\ LLMResult.prompt_tokens res = 0
          /\ LLMResult.completion_tokens res = 0).
Proof.
  eexists. split; [apply _call_llm_eq |]. cbv zeta.
  destruct (chat_completions_create model test_case) as [msg | response];
    simpl.
  - split; [reflexivity |]. split.
    + split; [discriminate | intros [r D]; discriminate].
    + split; [intros r D; discriminate |].
      intros m [= <-]. repeat split.
  - split; [reflexivity |]. split.
    + split; [eauto | reflexivity].
    + split; [| intros m D; discriminate].
      intros r [= <-]. repeat split.
Qed.

(** X7. When the backend answers and the dispatcher returns, the result of
    [run_test] has the verdict and the score of the dispatcher on the text
    of the answer, that text as [actual_output], no [error_message] and
    the token counts of the answer; the file was loaded, the backend called
    once and the dispatcher once, in this order. *)
Theorem run_test_scores_the_answer `{Scorers} `{Env}
  (test_path model : string) (w : World) (data : json) (td : TestDefinition)
  (response : ChatCompletion) (res : EvalResult.t) :
  json_load test_path = Ok data ->
  TestDefinition_init data = Ok td ->
  chat_completions_create model (test_case td) = inr response ->
  evaluate_response (content response) (evaluation td) = Ok res ->
  run_test test_path model w
  = (Ok {| TestResult.test_id := test_id td;
           TestResult.passed := EvalResult.passed res;
           TestResult.score := EvalResult.score res;
           TestResult.actual_output := content response;
           TestResult.expected_output := expected_answer (evaluation td);
           TestResult.error_message := None;
           TestResult.execution_time_ms :=
             Qred ((time_time (S (ticks w)) - time_time (ticks w)) * 1000);
           TestResult.prompt_tokens := Some (usage_prompt_tokens response);
           TestResult.completion_tokens :=
             Some (usage_completion_tokens response) |},
     {| ticks := S (S (ticks w));
        trace := (trace w ++ [EvLoad test_path; EvChat model (test_case td);
                              EvEvaluate (content response) (evaluation td)])%list |}).
Proof.
  intros Hload Hinit Hchat Heval. rewrite run_test_eq.
  rewrite Hload. simpl. rewrite Hinit, Hchat, Heval.
  rewrite <- app_assoc. reflexivity.
Qed.

Lemma run_test_scores_the_answer_witness :
  exists r w',
    @run_test Demo.scorers Demo.env "tests/b.json" "gpt-4" init_world
    = (Ok r, w')
    /\ TestResult.passed r = true
    /\ TestResult.actual_output r = " paris "
    /\ TestResult.error_message r = None.
Proof.
  do 2 eexists. split.
  - apply (@run_test_scores_the_answer Demo.scorers Demo.env "tests/b.json"
             "gpt-4" init_world
             (Demo.definition_of "b" "capital?" Demo.capital)
             (Demo.definition_of "b" "capital?" Demo.capital)
             {| content := " paris "; usage_prompt_tokens := 9;
                usage_completion_tokens := 1 |}
             {| EvalResult.score := 0%Q; EvalResult.passed := true |});
      reflexivity.
  - repeat split.
Defined.

(** X8. When the file cannot be read or its content is not a valid test
    definition, [run_test] raises that exception at once: the backend is
    not called, the clock is not read and the dispatcher is not called. *)
Theorem run_test_load_failure `{Scorers} `{Env}
  (test_path model : string) (w : World) (e : exn) :
  json_load test_path = Raise e
  \/ (exists data, json_load test_path = Ok data
                   /\ TestDefinition_init data = Raise e) ->
  run_test test_path model w
  = (Raise e,
     {| ticks := ticks w; trace := (trace w ++ [EvLoad test_path])%list |}).
Proof.
  intros Hload. apply load_raise_cases in Hload.
  rewrite run_test_eq, Hload. reflexivity.
Qed.

Lemma run_test_load_failure_witness :
  @run_test Demo.scorers Demo.env "tests/missing.json" "gpt-4" init_world
  = (Raise (OtherError "FileNotFoundError" "tests/missing.json"),
     {| ticks := 0; trace := [EvLoad "tests/missing.json"] |}).
Proof.
  apply (@run_test_load_failure Demo.scorers Demo.env "tests/missing.json"
           "gpt-4" init_world).
  left. reflexivity.
Defined.

(** X9. [run_test] raises in three cases and in no other: the file cannot
    be loaded; its content is refused by [TestDefinition]; the dispatcher
    raises on the text it is given, which is the answer of the backend or,
    when the backend raised with an empty message, the empty string. An
    exception of the backend with a message never comes out of [run_test]. *)
Theorem run_test_raises_iff `{Scorers} `{Env}
  (test_path model : string) (w : World) (e : exn) :
  (exists w', run_test test_path model w = (Raise e, w')) <->
  json_load test_path = Raise e
  \/ (exists data, json_load test_path = Ok data
                   /\ TestDefinition_init data = Raise e)
  \/ (exists data td,
        json_load test_path = Ok data /\ TestDefinition_init data = Ok td
        /\ match chat_completions_create model (test_case td) with
           | inr response =>
               evaluate_response (content response) (evaluation td) = Raise e
           | inl msg =>
               msg = "" /\ evaluate_response "" (evaluation td) = Raise e
           end).
Proof.
  rewrite run_test_eq.
  destruct (obind (json_load test_path) TestDefinition_init) as [td | e0] eqn:L.
  - apply load_Ok_cases in L. destruct L as (data & Hload & Hinit).
    cbv zeta. split.
    + intros [w' Hr]. right; right. exists data, td.
      split; [exact Hload |]. split; [exact Hinit |]. revert Hr.
      destruct (chat_completions_create model (test_case td)) as [msg | response].
      * destruct (String.eqb_spec msg "") as [-> | N]; [| discriminate].
        intros Hr. split; [reflexivity |].
        destruct (evaluate_response "" (evaluation td)); [discriminate |].
        congruence.
      * intros Hr.
        destruct (evaluate_response (content response) (evaluation td));
          [discriminate | congruence].
    + intros [D | [(data' & Hload' & Hinit') | (data' & td' & Hload' & Hinit' & Hc)]].
      * congruence.
      * congruence.
      * assert (td' = td) by congruence. subst td'.
        destruct (chat_completions_create model (test_case td)) as [msg | response].
        -- destruct Hc as [-> Hc]. simpl. rewrite Hc. eauto.
        -- rewrite Hc. eauto.
  - apply load_raise_cases in L. split.
    + intros [w' [= <- _]]. tauto.
    + intros [D | [(data' & Hload' & Hinit') | (data' & td' & Hload' & Hinit' & _)]].
      * destruct L as [L | (d & L & _)]; [| congruence].
        assert (e0 = e) by congruence. subst. eauto.
      * destruct L as [L | (d & L & L')]; [congruence |].
        assert (e0 = e) by congruence. subst. eauto.
      * destruct L as [L | (d & L & L')]; congruence.
Qed.

Lemma run_test_raises_iff_witness :
  exists w',
    @run_test Demo.scorers Demo.env "tests/a.json" "gpt-4" init_world
    = (Raise (ValueError "Unknown evaluation type: sentiment"), w').
Proof.
  apply (proj2 (@run_test_raises_iff Demo.scorers Demo.env "tests/a.json"
                  "gpt-4" init_world _)).
  right; right.
  exists (Demo.definition_of "a" "mood?" Demo.sentiment),
    (Demo.definition_of "a" "mood?" Demo.sentiment).
  repeat split.
Defined.

Section BatchFacts.
Context `{Scorers} `{Env}.

(** What a returned result says of its trial. *)
Lemma run_test_Ok_cases test_path model w r w' :
  run_test test_path model w = (Ok r, w') ->
  exists data td,
    json_load test_path = Ok data /\ TestDefinition_init data = Ok td
    /\ TestResult.test_id r = test_id td
    /\ TestResult.expected_output r = expected_answer (evaluation td)
    /\ match chat_completions_create model (test_case td) with
       | inr response =>
           TestResult.error_message r = None
           /\ TestResult.actual_output r = content response
           /\ exists res,
                evaluate_response (content response) (evaluation td) = Ok res
                /\ TestResult.passed r = EvalResult.passed res
                /\ TestResult.score r = EvalResult.score res
       | inl msg =>
           TestResult.error_message r = Some msg
           /\ TestResult.actual_output r = ""
           /\ TestResult.prompt_tokens r = Some 0
           /\ TestResult.completion_tokens r = Some 0
           /\ (msg <> "" ->
               TestResult.passed r = false /\ TestResult.score r = 0%Q)
       end.
Proof.
  rewrite run_test_eq.
  destruct (obind (json_load test_path) TestDefinition_init) as [td | e] eqn:L;
    [| discriminate].
  apply load_Ok_cases in L. destruct L as (data & Hload & Hinit).
  cbv zeta. intros Hr. exists data, td.
  split; [exact Hload |]. split; [exact Hinit |]. revert Hr.
  destruct (chat_completions_create model (test_case td)) as [msg | response].
  - destruct (String.eqb_spec msg "") as [-> | N].
    + destruct (evaluate_response "" (evaluation td)); intros [= <- <-];
        simpl; repeat split; congruence.
    + intros [= <- <-]. simpl. repeat split.
  - destruct (evaluate_response (content response) (evaluation td)) as [res |];
      intros [= <- <-]; simpl.
    repeat split. exists res. repeat split.
Qed.

Lemma run_tests_Ok_shape results test_files model w rs w' :
  run_tests results test_files model w = (Ok rs, w') ->
  exists new,
    rs = (results ++ new)%list
    /\ Forall2 (fun f r => exists w1 w2, run_test f model w1 = (Ok r, w2))
         test_files new
    /\ ticks w' = (ticks w + 2 * length test_files)%nat.
Proof.
  revert results w. induction test_files as [| f fs IH]; intros results w; simpl.
  - unfold ret. intros [= <- <-]. exists []. rewrite app_nil_r.
    repeat split; [constructor | lia].
  - unfold bind. destruct (run_test f model w) as [[r | e] w1] eqn:Hf;
      [| discriminate].
    intros Hrest. destruct (IH _ _ Hrest) as (new & -> & Hall & Hticks).
    exists (r :: new). rewrite <- app_assoc. split; [reflexivity |].
    split; [constructor; eauto |].
    rewrite Hticks, (run_test_Ok_ticks _ _ _ _ _ Hf). lia.
Qed.

Lemma run_tests_Raise_split results test_files model w e w' :
  run_tests results test_files model w = (Raise e, w') ->
  exists pre f post rs w1,
    test_files = (pre ++ f :: post)%list
    /\ run_tests results pre model w = (Ok rs, w1)
    /\ run_test f model w1 = (Raise e, w').
Proof.
  revert results w. induction test_files as [| f fs IH]; intros results w; simpl.
  - discriminate.
  - unfold bind. destruct (run_test f model w) as [[r | e0] w1] eqn:Hf.
    + intros Hrest.
      destruct (IH _ _ Hrest) as (pre & g & post & rs & w2 & -> & Hpre & Hg).
      exists (f :: pre), g, post, rs, w2. split; [reflexivity |].
      split; [| exact Hg]. simpl. unfold bind. now rewrite Hf.
    + intros [= <- <-]. exists [], f, fs, results, w. repeat split.
      exact Hf.
Qed.

End BatchFacts.

(** X10. A result that [run_test] returns tells what happened. It carries
    the identifier and the expected answer of the loaded definition. If the
    backend answered, it has no [error_message], the answer as
    [actual_output] and the verdict and score of the dispatcher on that
    answer. If the backend raised, it has the message as [error_message],
    an empty [actual_output] and token counts 0, and, when the message is
    not empty, [passed] false and score 0. *)
Theorem run_test_result_reflects_trial `{Scorers} `{Env}
  (test_path model : string) (w w' : World) (r : TestResult.t) :
  run_test test_path model w = (Ok r, w') ->
  exists data td,
    json_load test_path = Ok data /\ TestDefinition_init data = Ok td
    /\ TestResult.test_id r = test_id td
    /\ TestResult.expected_output r = expected_answer (evaluation td)
    /\ match chat_completions_create model (test_case td) with
       | inr response =>
           TestResult.error_message r = None
           /\ TestResult.actual_output r = content response
           /\ exists res,
                evaluate_response (content response) (evaluation td) = Ok res
                /\ TestResult.passed r = EvalResult.passed res
                /\ TestResult.score r = EvalResult.score res
       | inl msg =>
           TestResult.error_message r = Some msg
           /\ TestResult.actual_output r = ""
           /\ TestResult.prompt_tokens r = Some 0
           /\ TestResult.completion_tokens r = Some 0
           /\ (msg <> "" ->
               TestResult.passed r = false /\ TestResult.score r = 0%Q)
       end.
Proof. apply run_test_Ok_cases. Qed.

Lemma run_test_result_reflects_trial_witness :
  exists td,
    @test_id td = "d"
    /\ Demo.load "tests/d.json" = Ok td.
Proof.
  edestruct (@run_test_result_reflects_trial Demo.scorers Demo.env
               "tests/d.json" "gpt-4" init_world)
    as (data & td & Hload & Hinit & Hid & _); [vm_compute; reflexivity |].
  exists td. split.
  - rewrite <- Hid. reflexivity.
  - simpl in Hload, Hinit. congruence.
Defined.

(** X11. When [run_all] or [run_category] returns, it returns one result
    per test file, in the order of the sorted file names: the [i]-th result
    is what [run_test] returned on the [i]-th file. Every trial read the
    clock twice. *)
Theorem batch_returns_one_result_per_file `{Scorers} `{Env}
  (dir model : string) (w w' : World) (rs : list TestResult.t) :
  let one_per_file files :=
    Forall2 (fun f r => exists w1 w2, run_test f model w1 = (Ok r, w2)) files rs
    /\ length rs = length files
    /\ ticks w' = (ticks w + 2 * length files)%nat in
  (run_all dir model w = (Ok rs, w') ->
   one_per_file (sorted_rglob dir "*.json"))
  /\ (run_category dir model w = (Ok rs, w') ->
      one_per_file (sorted_glob dir "*.json")).
Proof.
  intros one_per_file. unfold one_per_file, run_all, run_category.
  split; intros Hrun; apply run_tests_Ok_shape in Hrun;
    destruct Hrun as (new & -> & Hall & Hticks); simpl;
    (split; [exact Hall |]); (split; [| exact Hticks]);
    symmetry; eapply Forall2_length; eassumption.
Qed.

Lemma batch_returns_one_result_per_file_witness :
  exists rs w',
    @run_category Demo.scorers Demo.env "tests" "gpt-4" init_world = (Ok rs, w')
    /\ length rs = 2%nat /\ ticks w' = 4%nat.
Proof.
  do 2 eexists. split; [vm_compute; reflexivity |].
  match goal with
  | |- length ?rs = _ /\ ticks ?w' = _ =>
      destruct (@batch_returns_one_result_per_file Demo.scorers Demo.env
                  "tests" "gpt-4" init_world w' rs) as [_ Hcat]
  end.
  destruct Hcat as (_ & Hlen & Hticks); [vm_compute; reflexivity |].
  split; [exact Hlen | exact Hticks].
Defined.

(** X12. The loop of [run_all] and [run_category] raises exactly when some
    file makes [run_test] raise after every file before it returned; the
    exception and the world are those of that trial, so the first failure
    in file order decides and nothing after it runs. *)
Theorem batch_raises_iff_first_failure `{Scorers} `{Env}
  (results : list TestResult.t) (test_files : list string) (model : string)
  (w w' : World) (e : exn) :
  run_tests results test_files model w = (Raise e, w') <->
  exists pre f post rs w1,
    test_files = (pre ++ f :: post)%list
    /\ run_tests results pre model w = (Ok rs, w1)
    /\ run_test f model w1 = (Raise e, w').
Proof.
  split.
  - apply run_tests_Raise_split.
  - intros (pre & f & post & rs & w1 & -> & Hpre & Hf).
    eapply run_tests_raise_at; eassumption.
Qed.

Lemma batch_raises_iff_first_failure_witness :
  exists w',
    @run_tests Demo.scorers Demo.env [] ["tests/b.json"; "tests/a.json"; "tests/d.json"]
      "gpt-4" init_world
    = (Raise (ValueError "Unknown evaluation type: sentiment"), w')
    /\ ticks w' = 4%nat.
Proof.
  eexists. split.
  - apply (proj2 (@batch_raises_iff_first_failure Demo.scorers Demo.env []
                    ["tests/b.json"; "tests/a.json"; "tests/d.json"] "gpt-4"
                    init_world _ _)).
    exists ["tests/b.json"], "tests/a.json", ["tests/d.json"].
    do 2 eexists. split; [reflexivity |]. split; vm_compute; reflexivity.
  - reflexivity.
Defined.

(* ===================================================================== *)
(** ** The categories of a report *)
(* ===================================================================== *)

Section CategoryFacts.

Lemma length_as_sum (g : list pyobj) :
  Z.of_nat (length g) = sum_Z (map (fun _ => 1) g).
Proof. induction g as [| r g IH]; simpl length; simpl sum_Z; lia. Qed.

Lemma count_passed_as_sum g :
  count_passed g = sum_Z (map (fun r => if passed_of r then 1 else 0) g).
Proof.
  unfold count_passed. induction g as [| r g IH]; simpl; [reflexivity |].
  destruct (passed_of r); simpl length; lia.
Qed.


Lemma sum_Z_summaries (f : CategorySummary.t -> Z) (m : pyobj -> Z)
  (d : list (pyval * list pyobj)) :
  (forall g, f (summary_of g) = sum_Z (map m g)) ->
  sum_Z (map (fun ks => f (snd ks)) (map (fun '(k, g) => (k, summary_of g)) d))
  = sum_Z (map (fun kg => sum_Z (map m (snd kg))) d).
Proof.
  intros Hf. induction d as [| [k g] d IH]; simpl; [reflexivity |].
  rewrite IH, Hf. reflexivity.
Qed.

Lemma sum_Z_sub {A} (f g : A -> Z) l :
  sum_Z (map (fun x => f x - g x) l) = sum_Z (map f l) - sum_Z (map g l).
Proof. induction l as [| x l IH]; simpl; [reflexivity | rewrite IH; lia]. Qed.

End CategoryFacts.

(** X13. The categories partition the results: over the summaries of all
    categories the numbers of tests add up to the overall number of tests,
    the passed counts to the overall passed count and the failed counts to
    the overall failed count. *)
Theorem categories_partition_results (results : list pyobj) (l : ReportLocals) :
  report_locals results = Ok l ->
  sum_Z (map (fun ks => CategorySummary.tests_run (snd ks))
           (summary_by_category l)) = total_tests l
  /\ sum_Z (map (fun ks => CategorySummary.passed (snd ks))
              (summary_by_category l)) = passed_tests l
  /\ sum_Z (map (fun ks => CategorySummary.failed (snd ks))
              (summary_by_category l)) = failed_tests l.
Proof.
  intros Hl. apply report_locals_Ok in Hl. destruct Hl as [_ ->].
  unfold locals_of. simpl.
  assert (Hrun : sum_Z (map (fun ks => CategorySummary.tests_run (snd ks))
                          (map (fun '(k, g) => (k, summary_of g))
                             (groups_of [] results)))
                 = Z.of_nat (length results)).
  { rewrite (sum_Z_summaries _ (fun _ => 1))
      by (intros g; apply length_as_sum).
    rewrite groups_of_measure, <- length_as_sum. reflexivity. }
  assert (Hpass : sum_Z (map (fun ks => CategorySummary.passed (snd ks))
                           (map (fun '(k, g) => (k, summary_of g))
                              (groups_of [] results)))
                  = count_passed results).
  { rewrite (sum_Z_summaries _ (fun r => if passed_of r then 1 else 0))
      by (intros g; apply count_passed_as_sum).
    rewrite groups_of_measure, <- count_passed_as_sum. reflexivity. }
  split; [exact Hrun |]. split; [exact Hpass |].
  rewrite <- Hrun, <- Hpass, <- sum_Z_sub, !map_map. f_equal.
  apply map_ext. intros [k g]. reflexivity.
Qed.

Lemma categories_partition_results_witness :
  exists l,
    report_locals DemoResults.trials = Ok l
    /\ sum_Z (map (fun ks => CategorySummary.tests_run (snd ks))
                (summary_by_category l)) = 3.
Proof.
  exists (locals_of DemoResults.trials).
  assert (Hl : report_locals DemoResults.trials
               = Ok (locals_of DemoResults.trials))
    by (apply report_locals_wf; [repeat constructor | vm_compute; reflexivity]).
  split; [exact Hl |].
  rewrite (proj1 (categories_partition_results _ _ Hl)). reflexivity.
Defined.

Section KeyOrderFacts.

Lemma py_eqb_refl c : hashable c = true -> py_eqb c c = true.
Proof.
  destruct c; simpl; try reflexivity; try discriminate; intros _.
  - destruct b; reflexivity.
  - apply Qeq_bool_iff. reflexivity.
  - apply Qeq_bool_iff. reflexivity.
  - apply String.eqb_refl.
Qed.

Lemma dict_append_keys (P : pyval -> Prop) c r (d : list (pyval * list pyobj)) :
  P c -> Forall (fun kv => P (fst kv)) d ->
  Forall (fun kv => P (fst kv)) (dict_append c r d).
Proof.
  intros Hc Hd. induction Hd as [| [k g] d Hk Hd IH]; simpl.
  - repeat constructor. exact Hc.
  - destruct (py_eqb k c); constructor; assumption.
Qed.

Lemma dict_append_keys_distinct c r (d : list (pyval * list pyobj)) :
  keys_distinct d -> keys_distinct (dict_append c r d).
Proof.
  induction d as [| [k g] d IH]; simpl.
  - intros _. split; [constructor | exact I].
  - intros [Hk Hd]. destruct (py_eqb k c) eqn:E; simpl.
    + split; assumption.
    + split; [| now apply IH].
      apply (dict_append_keys (fun k' => py_eqb k k' = false)); assumption.
Qed.

Lemma groups_of_keys_distinct d results :
  keys_distinct d -> keys_distinct (groups_of d results).
Proof.
  revert d. induction results as [| r results IH]; intros d Hd; [exact Hd |].
  simpl. apply IH. now apply dict_append_keys_distinct.
Qed.

Lemma keys_distinct_map {V W} (f : V -> W) (d : list (pyval * V)) :
  keys_distinct d -> keys_distinct (map (fun '(k, v) => (k, f v)) d).
Proof.
  induction d as [| [k v] d IH]; simpl; [exact id |].
  intros [Hk Hd]. split; [| now apply IH].
  clear IH Hd. induction Hk as [| [k' v'] d Hk' _ IHk]; simpl;
    constructor; assumption.
Qed.

Lemma groups_of_keys (P : pyval -> Prop) d results :
  Forall (fun r => P (category_of r)) results ->
  Forall (fun kv => P (fst kv)) d ->
  Forall (fun kv => P (fst kv)) (groups_of d results).
Proof.
  intros Hr. revert d. induction Hr as [| r results Hc _ IH]; intros d Hd;
    [exact Hd |].
  simpl. apply IH. now apply dict_append_keys.
Qed.

Lemma dict_append_length c r (d : list (pyval * list pyobj)) :
  (length (dict_append c r d) <= S (length d))%nat.
Proof.
  induction d as [| [k g] d IH]; simpl; [lia |].
  destruct (py_eqb k c); simpl; lia.
Qed.

Lemma groups_of_length d results :
  (length (groups_of d results) <= length d + length results)%nat.
Proof.
  revert d. induction results as [| r results IH]; intros d; simpl; [lia |].
  change (fold_left _ results (dict_append (category_of r) r d))
    with (groups_of (dict_append (category_of r) r d) results).
  pose proof (IH (dict_append (category_of r) r d)).
  pose proof (dict_append_length (category_of r) r d). lia.
Qed.

Lemma well_formed_hashable r :
  well_formed r = true -> hashable (category_of r) = true.
Proof.
  intros Hr.
  destruct (well_formed_inv r Hr) as (p & s & t & c & _ & _ & _ & Hc & _ & _ & Hh).
  unfold category_of. now rewrite (getitem_field _ _ _ Hc).
Qed.

End KeyOrderFacts.

(** X14. In the dictionary of category summaries no two keys are equal;
    every key is the category of some result and the category of every
    result has its summary there, so there are at most as many categories
    as results. *)
Theorem category_keys_are_the_categories (results : list pyobj)
  (l : ReportLocals) :
  report_locals results = Ok l ->
  keys_distinct (summary_by_category l)
  /\ (forall k s,
        In (k, s) (summary_by_category l) ->
        exists r, In r results /\ category_of r = k)
  /\ (forall r,
        In r results ->
        exists s, dict_get (category_of r) (summary_by_category l) = Some s)
  /\ (length (summary_by_category l) <= length results)%nat.
Proof.
  intros Hl. apply report_locals_Ok in Hl. destruct Hl as [Hwf ->].
  split; [| split; [| split]].
  - simpl. apply keys_distinct_map, groups_of_keys_distinct. exact I.
  - intros k s Hin. simpl in Hin. apply in_map_iff in Hin.
    destruct Hin as ([k' g] & [= -> _] & Hin).
    assert (Hkeys : Forall (fun kv => exists r, In r results
                                             /\ category_of r = fst kv)
                      (groups_of [] results)).
    { apply (groups_of_keys
               (fun k => exists r, In r results /\ category_of r = k));
        [| constructor].
      apply List.Forall_forall. intros r Hr. eauto. }
    apply (proj1 (List.Forall_forall _ _) Hkeys (k, g) Hin).
  - intros r Hin. rewrite dict_get_summaries.
    assert (Hmem : In r (in_category (category_of r) results)).
    { apply filter_In. split; [exact Hin |]. apply py_eqb_refl.
      apply well_formed_hashable.
      apply (proj1 (List.Forall_forall _ _) Hwf r Hin). }
    destruct (in_category (category_of r) results); [destruct Hmem | eauto].
  - simpl. rewrite length_map. apply (groups_of_length [] results).
Qed.

Lemma category_keys_are_the_categories_witness :
  exists l,
    report_locals DemoResults.trials = Ok l
    /\ (length (summary_by_category l) <= 3)%nat.
Proof.
  exists (locals_of DemoResults.trials).
  assert (Hl : report_locals DemoResults.trials
               = Ok (locals_of DemoResults.trials))
    by (apply report_locals_wf; [repeat constructor | vm_compute; reflexivity]).
  split; [exact Hl |].
  apply (category_keys_are_the_categories _ _ Hl).
Defined.

Section BoundFacts.



End BoundFacts.



(* ===================================================================== *)
(** ** What the reporter can raise *)
(* ===================================================================== *)

(** X16. The summaries of the reporter raise whenever some result is not
    one it can read (a dictionary with the four keys, a score that is a
    number or [None], a time that is a number, a hashable category), and
    return on the results it can read whose [int] scores and times are
    within the float range. What it raises is a [KeyError] naming one of
    the keys [passed], [score], [execution_time_ms] and [category] or a
    [TypeError], and then some result is not one it can read; or an
    [OverflowError], and then the [int] scores or times are not within the
    float range. It raises nothing else. *)
Theorem report_locals_raise_cases (results : list pyobj) :
  (Exists (fun r => well_formed r = false) results ->
   raises (report_locals results))
  /\ (Forall (fun r => well_formed r = true) results ->
      within_float_range results = true ->
      returns (report_locals results))
  /\ (forall e,
        report_locals results = Raise e ->
        (reader_error e /\ Exists (fun r => well_formed r = false) results)
        \/ (overflow_error e /\ within_float_range results = false)).
Proof.
  split; [| split].
  - intros Hex. destruct (report_locals results) as [l | e] eqn:Hl;
      [| now exists e].
    apply report_locals_Ok in Hl. destruct Hl as [Hwf _].
    destruct (unreadable_not_well_formed _ Hwf Hex).
  - intros Hwf Hrange. exists (locals_of results). now apply report_locals_wf.
  - intros e. apply report_locals_Raise.
Qed.

Lemma report_locals_raise_cases_witness :
  raises (report_locals
            [ODict {["passed" := PBool true; "score" := PFloat 1]}])
  /\ returns (report_locals DemoResults.trials).
Proof.
  split.
  - apply (proj1 (report_locals_raise_cases _)). constructor. reflexivity.
  - apply (proj1 (proj2 (report_locals_raise_cases _)));
      [repeat constructor | vm_compute; reflexivity].
Defined.

(** X17. [generate_html_report] returns exactly when the summaries are
    computed, the template renders and the file is written; it has then
    written one file, at [output_path], with the rendering of the
    summaries, and done nothing else. When it raises, either the summaries
    or the template raised and no file was touched, or it went on to open
    and write the file at [output_path] with that rendering, once, and
    this raised. *)
Theorem generate_html_report_writes_last `{Env} (results : list pyobj)
  (output_path : string) (w w' : World) :
  (generate_html_report results output_path w = (Ok tt, w') <->
   exists html_content,
     report_locals results = Ok (locals_of results)
     /\ render_report (report_summary (locals_of results))
          (summary_by_category (locals_of results)) results = Ok html_content
     /\ write_text output_path html_content = Ok tt
     /\ w' = {| ticks := ticks w;
                trace := (trace w ++ [EvWrite output_path html_content])%list |})
  /\ (forall e,
        generate_html_report results output_path w = (Raise e, w') ->
        (w' = w
         /\ (report_locals results = Raise e
             \/ render_report (report_summary (locals_of results))
                  (summary_by_category (locals_of results)) results
                = Raise e))
        \/ exists html_content,
             render_report (report_summary (locals_of results))
               (summary_by_category (locals_of results)) results
             = Ok html_content
             /\ write_text output_path html_content = Raise e
             /\ w' = {| ticks := ticks w;
                        trace := (trace w
                                  ++ [EvWrite output_path html_content])%list |}).
Proof.
  unfold generate_html_report, bind, lift, emit. split.
  - split.
    + destruct (report_locals results) as [l | e] eqn:Hl; [| discriminate].
      apply report_locals_Ok in Hl. destruct Hl as [_ ->].
      destruct (render_report _ _ _) as [html |] eqn:Hr; [| discriminate].
      destruct (write_text output_path html) as [[] |] eqn:Hw;
        [| discriminate].
      intros [= <-]. exists html. repeat split; assumption.
    + intros (html & -> & Hr & Hw & ->). rewrite Hr, Hw. reflexivity.
  - intros e. destruct (report_locals results) as [l | e0] eqn:Hl.
    + apply report_locals_Ok in Hl. destruct Hl as [_ ->].
      destruct (render_report _ _ _) as [html | e1] eqn:Hr.
      * destruct (write_text output_path html) as [[] | e2] eqn:Hw;
          [discriminate |].
        intros [= <- <-]. right. exists html. repeat split; assumption.
      * intros [= <- <-]. left. split; [reflexivity | now right].
    + intros [= <- <-]. left. split; [reflexivity | now left].
Qed.

Lemma generate_html_report_writes_last_witness :
  @generate_html_report Demo.env DemoResults.trials "report.html" init_world
  = (Ok tt, {| ticks := 0;
               trace := [EvWrite "report.html" "<html></html>"] |}).
Proof.
  apply (proj1 (@generate_html_report_writes_last Demo.env DemoResults.trials
                  "report.html" init_world _)).
  exists "<html></html>". repeat split.
Defined.

(* ===================================================================== *)
(** ** The constructor and the command line *)
(* ===================================================================== *)

Section CliFacts.
Context `{Scorers} `{Env} `{Shell}.

Lemma LLMBenchmark_init_with_key api_key base_url :
  optional_truthy api_key = true ->
  LLMBenchmark_init api_key base_url
  = Ok {| LLMBenchmark.api_key := api_key;
          LLMBenchmark.base_url := optional_or base_url (getenv "BASE_URL") |}.
Proof.
  intros Hk. unfold LLMBenchmark_init, optional_or. rewrite Hk, Hk. reflexivity.
Qed.




End CliFacts.

(** X18. The constructor of [LLMBenchmark] raises its [ValueError] exactly
    when neither the argument nor the variable [OPENAI_API_KEY] gives a
    non-empty key. A non-empty argument is the key it keeps; an argument
    that is [None] or empty gives way to the variable. *)
Theorem LLMBenchmark_init_needs_a_key `{Shell} (api_key base_url : option string) :
  (raises (LLMBenchmark_init api_key base_url)
   <-> optional_truthy api_key = false
       /\ optional_truthy (getenv "OPENAI_API_KEY") = false)
  /\ (forall self,
        LLMBenchmark_init api_key base_url = Ok self ->
        optional_truthy (LLMBenchmark.api_key self) = true
        /\ LLMBenchmark.api_key self
           = (if optional_truthy api_key then api_key
              else getenv "OPENAI_API_KEY")).
Proof.
  unfold LLMBenchmark_init, optional_or, raises. split.
  - destruct (optional_truthy api_key) eqn:Ea.
    + rewrite Ea. simpl. split; [intros [e D]; discriminate | intros [D _]; discriminate].
    + destruct (optional_truthy (getenv "OPENAI_API_KEY")) eqn:Ee; simpl.
      * split; [intros [e D]; discriminate | intros [_ D]; discriminate].
      * split; [auto | eauto].
  - intros self.
    destruct (optional_truthy api_key) eqn:Ea.
    + rewrite Ea. simpl. intros [= <-]. simpl. auto.
    + destruct (optional_truthy (getenv "OPENAI_API_KEY")) eqn:Ee; simpl;
        [| discriminate].
      intros [= <-]. simpl. auto.
Qed.

Lemma LLMBenchmark_init_needs_a_key_witness :
  raises (@LLMBenchmark_init DemoShell.shell (Some "") None).
Proof.
  apply (proj2 (proj1 (@LLMBenchmark_init_needs_a_key DemoShell.shell
                         (Some "") None))).
  split; reflexivity.
Defined.

(** X19. The command [run] with a key and at least one of [--test] and
    [--category] is one batch: the single test first, then the sorted files
    of the directory, each run by [run_test]. The constructor does not
    raise; the first trial that raises ends the command with its exception
    and nothing is printed; when all return, the results are displayed.
    Without a key, or with a key and no path, the command prints its error
    and loads no file. *)
Theorem cli_run_is_one_batch `{Scorers} `{Env} `{Shell}
  (test_path category_path : option string) (model : string)
  (api_key base_url : option string) (w : World) :
  (optional_truthy api_key = true ->
   test_path <> None \/ category_path <> None ->
   cli.run test_path category_path model api_key base_url w
   = match run_tests [] (cli_files test_path category_path) model w with
     | (Ok results, w1) => cli.display model results w1
     | (Raise e, w1) => (Raise e, w1)
     end)
  /\ (optional_truthy api_key = false ->
      cli.run test_path category_path model api_key base_url w
      = (Ok tt,
         {| ticks := ticks w;
            trace :=
              (trace w
               ++ [EvPrint "[bold red]Error: API key not found.[/bold red]";
                   EvPrint "Please provide it with --api-key or set a DECIPHER_API_KEY env var."])%list |}))
  /\ (optional_truthy api_key = true ->
      test_path = None -> category_path = None ->
      cli.run test_path category_path model api_key base_url w
      = (Ok tt,
         {| ticks := ticks w;
            trace :=
              (trace w
               ++ [EvPrint "[bold red]Error: You must specify --test or --category.[/bold red]"])%list |})).
Proof.
  split; [| split].
  - intros Hk Hpath. unfold cli.run, cli_files. rewrite Hk. cbn [negb].
    destruct test_path as [p |], category_path as [d |];
      try (destruct Hpath; congruence);
      unfold bind at 1; unfold lift at 1;
      rewrite (LLMBenchmark_init_with_key _ _ Hk); cbv beta iota.
    + change (option_list (Some p) ++ sorted_glob d "**/*.json")%list
        with (p :: sorted_glob d "**/*.json").
      simpl run_tests. unfold bind, ret.
      destruct (run_test p model w) as [[r | e] w1]; [| reflexivity].
      change ([] ++ [r])%list with [r].
      destruct (run_tests [r] (sorted_glob d "**/*.json") model w1)
        as [[rs | e] w2]; reflexivity.
    + change (option_list (Some p) ++ [])%list with [p].
      simpl run_tests. unfold bind, ret.
      destruct (run_test p model w) as [[r | e] w1]; reflexivity.
    + change (option_list None ++ sorted_glob d "**/*.json")%list
        with (sorted_glob d "**/*.json").
      unfold bind, ret.
      destruct (run_tests [] (sorted_glob d "**/*.json") model w)
        as [[rs | e] w1]; reflexivity.
  - intros Hk. unfold cli.run. rewrite Hk. cbn [negb].
    unfold bind, emit. cbn [trace ticks]. rewrite <- app_assoc. reflexivity.
  - intros Hk -> ->. unfold cli.run. rewrite Hk. reflexivity.
Qed.

Lemma cli_run_is_one_batch_witness :
  fst (@cli.run Demo.scorers Demo.env DemoShell.shell (Some "tests/a.json")
         (Some "tests") "gpt-4" (Some "sk-demo") None init_world)
  = Raise (ValueError "Unknown evaluation type: sentiment").
Proof.
  rewrite (proj1 (@cli_run_is_one_batch Demo.scorers Demo.env DemoShell.shell
                    (Some "tests/a.json") (Some "tests") "gpt-4"
                    (Some "sk-demo") None init_world));
    [reflexivity | reflexivity | left; discriminate].
Defined.



(* ===================================================================== *)
(** ** Reports of joined lists *)
(* ===================================================================== *)

Section JoinFacts.

Lemma count_passed_app a b :
  count_passed (a ++ b)%list = count_passed a + count_passed b.
Proof.
  unfold count_passed. rewrite List.filter_app, length_app. lia.
Qed.

Lemma in_category_app k a b :
  in_category k (a ++ b)%list = (in_category k a ++ in_category k b)%list.
Proof. apply List.filter_app. Qed.

Lemma summary_counts_at k results :
  from_option CategorySummary.tests_run 0
    (dict_get k (summary_by_category (locals_of results)))
  = Z.of_nat (length (in_category k results))
  /\ from_option CategorySummary.passed 0
       (dict_get k (summary_by_category (locals_of results)))
     = count_passed (in_category k results).
Proof.
  rewrite dict_get_summaries.
  destruct (in_category k results); split; reflexivity.
Qed.

(** The parts of a list within the float range are within it. *)
Lemma within_float_range_app a b :
  within_float_range (a ++ b)%list = true ->
  within_float_range a = true /\ within_float_range b = true.
Proof.
  unfold within_float_range, score_weight, time_weight.
  rewrite !map_app, !sum_Z_app. intros Hrange.
  apply andb_prop in Hrange. destruct Hrange as [Hs Ht].
  apply Z.ltb_lt in Hs, Ht.
  pose proof (weight_nonneg "score" a). pose proof (weight_nonneg "score" b).
  pose proof (weight_nonneg "execution_time_ms" a).
  pose proof (weight_nonneg "execution_time_ms" b).
  split; apply andb_true_intro; split; apply Z.ltb_lt; lia.
Qed.

End JoinFacts.

(** X21. The counts of the report of a joined list are the sums of the
    counts of the reports of its parts: when the reporter returns on the
    two parts and on the joined list, the number of tests, the passed and
    the failed count add up, overall and under every category key (a
    category absent from a part counts 0 there). When every result of the
    joined list is one it can read and the [int] scores and times of the
    joined list are within the float range, it returns on the joined list
    and on both parts. *)
Theorem report_of_joined_lists (a b : list pyobj) :
  (Forall (fun r => well_formed r = true) (a ++ b)%list ->
   within_float_range (a ++ b)%list = true ->
   returns (report_locals (a ++ b)%list)
   /\ returns (report_locals a) /\ returns (report_locals b))
  /\ (forall la lb l,
        report_locals a = Ok la -> report_locals b = Ok lb ->
        report_locals (a ++ b)%list = Ok l ->
        total_tests l = total_tests la + total_tests lb
        /\ passed_tests l = passed_tests la + passed_tests lb
        /\ failed_tests l = failed_tests la + failed_tests lb
        /\ forall k,
             let tests_at l :=
               from_option CategorySummary.tests_run 0
                 (dict_get k (summary_by_category l)) in
             let passed_at l :=
               from_option CategorySummary.passed 0
                 (dict_get k (summary_by_category l)) in
             tests_at l = tests_at la + tests_at lb
             /\ passed_at l = passed_at la + passed_at lb).
Proof.
  split.
  - intros Hwf Hrange. apply Forall_app in Hwf. destruct Hwf as [Ha Hb].
    destruct (within_float_range_app _ _ Hrange) as [Hra Hrb].
    unfold returns.
    split; [| split]; eexists; apply report_locals_wf; try assumption.
    apply Forall_app. now split.
  - intros la lb l Hla Hlb Hl.
    apply report_locals_Ok in Hla, Hlb, Hl.
    destruct Hla as [_ ->], Hlb as [_ ->], Hl as [_ ->].
    assert (Hlen : Z.of_nat (length (a ++ b)%list)
                   = Z.of_nat (length a) + Z.of_nat (length b))
      by (rewrite length_app; lia).
    split; [exact Hlen |]. split; [apply count_passed_app |].
    split; [simpl; rewrite count_passed_app; lia |].
    intros k tests_at passed_at. unfold tests_at, passed_at.
    destruct (summary_counts_at k (a ++ b)%list) as [-> ->].
    destruct (summary_counts_at k a) as [-> ->].
    destruct (summary_counts_at k b) as [-> ->].
    rewrite in_category_app, count_passed_app, length_app. lia.
Qed.

Lemma report_of_joined_lists_witness :
  exists l,
    report_locals (DemoResults.trials ++ DemoResults.unscored)%list = Ok l
    /\ total_tests l = 5 /\ passed_tests l = 3.
Proof.
  destruct (report_of_joined_lists DemoResults.trials DemoResults.unscored)
    as [Hreturns Hsum].
  destruct Hreturns as ([l Hl] & [la Hla] & [lb Hlb]);
    [repeat constructor | vm_compute; reflexivity |].
  exists l. split; [exact Hl |].
  destruct (Hsum la lb l Hla Hlb Hl) as (Ht & Hp & _).
  rewrite Ht, Hp. vm_compute in Hla, Hlb.
  injection Hla as <-. injection Hlb as <-. split; reflexivity.
Defined.
